(** * The chat page of web/app/page.tsx

    A shallow embedding of the React component [Page]: its view state
    (the four [useState] cells), the two asynchronous operations
    [fetchWelcome] and [sendQuestion], the event handlers of the composer
    and of the follow-up button, what [renderMessage] and the page show,
    and the properties of the conversation they maintain.

    Strings are JavaScript strings, that is sequences of UTF-16 code units.
    What the browser supplies (clock, random numbers, locale formatting, the
    network) is a record of oracles, [Browser].  Console output is not
    modelled. *)

From Stdlib Require Import List NArith QArith Bool String Ascii Lia.
Import ListNotations.

Close Scope Q_scope.
Local Open Scope list_scope.

(** ** JavaScript strings *)

Module Js.

Definition code_unit := N.
Definition jsstring := list code_unit.

(** An ASCII literal of the source as a JavaScript string. *)
Definition lit (s : string) : jsstring :=
  map N_of_ascii (list_ascii_of_string s).

(** WhiteSpace and LineTerminator of ECMAScript: what [trim] strips. *)
Definition is_white_space (c : code_unit) : bool :=
  ((9 <=? c) && (c <=? 13) || (c =? 32) || (c =? 160) || (c =? 5760)
   || (8192 <=? c) && (c <=? 8202) || (c =? 8232) || (c =? 8233)
   || (c =? 8239) || (c =? 8287) || (c =? 12288) || (c =? 65279))%N.

Fixpoint trimStart (s : jsstring) : jsstring :=
  match s with
  | c :: s' => if is_white_space c then trimStart s' else s
  | [] => []
  end.

Definition trimEnd (s : jsstring) : jsstring := rev (trimStart (rev s)).

(** [String.prototype.trim]. *)
Definition trim (s : jsstring) : jsstring := trimEnd (trimStart s).

(** Truthiness of a string: only the empty string is falsy. *)
Definition truthy (s : jsstring) : bool :=
  match s with [] => false | _ :: _ => true end.

(** [a ?? b] where [b] may itself be null. *)
Definition coalesce {A} (a b : option A) : option A :=
  match a with Some _ => a | None => b end.

(** [a ?? b] where [b] is a value. *)
Definition coalesce_to {A} (a : option A) (b : A) : A :=
  match a with Some x => x | None => b end.

(** [a || b] for [a : string | null | undefined] and a string [b]. *)
Definition or_else (a : option jsstring) (b : jsstring) : jsstring :=
  match a with
  | Some x => if truthy x then x else b
  | None => b
  end.

(** [s.slice(i, j)] for [0 <= i <= j]. *)
Definition slice (i j : nat) (s : jsstring) : jsstring :=
  firstn (j - i) (skipn i s).

(** Digits [0-9a-z] of [Number.prototype.toString(radix)]. *)
Definition digit (d : N) : code_unit :=
  (if d <? 10 then 48 + d else 87 + d)%N.

Fixpoint digits (radix : N) (fuel : nat) (n : N) (acc : jsstring) : jsstring :=
  match fuel with
  | O => acc
  | S fuel' =>
      let acc' := digit (n mod radix) :: acc in
      if (n / radix =? 0)%N then acc' else digits radix fuel' (n / radix) acc'
  end.

(** [n.toString(radix)] for a non-negative integer [n]; the number of
    digits is at most the binary size of [n], which is the fuel. *)
Definition toString (radix : N) (n : N) : jsstring :=
  digits radix (S (N.to_nat (N.size n))) n [].

End Js.

Import Js.

(** ** The data of the page *)

(** A JSON number of the reply; the page only stores and displays it. *)
Definition number := Q.

(** [type ChatResponse]. *)
Record ChatResponse := {
  answer : option jsstring;
  confidence : number;
  sources : list jsstring;
  cached : bool;
  follow_up : option jsstring;
  redacted : option bool
}.

(** [Partial<ChatResponse>]: every field may be absent. *)
Record PartialChatResponse := {
  meta_answer : option (option jsstring);
  meta_confidence : option number;
  meta_sources : option (list jsstring);
  meta_cached : option bool;
  meta_follow_up : option (option jsstring);
  meta_redacted : option bool
}.

(** A full reply used where a partial one is expected ([meta: data]). *)
Definition as_partial (d : ChatResponse) : PartialChatResponse :=
  {| meta_answer := Some (answer d);
     meta_confidence := Some (confidence d);
     meta_sources := Some (sources d);
     meta_cached := Some (cached d);
     meta_follow_up := Some (follow_up d);
     meta_redacted := redacted d |}.

Inductive Origin := user | bot | system.

(** [type Message]. *)
Record Message := {
  id : jsstring;
  from : Origin;
  text : jsstring;
  time : jsstring;
  meta : option PartialChatResponse
}.

(** The four [useState] cells of [Page]. *)
Record State := {
  question : jsstring;
  loading : bool;
  error : option jsstring;
  messages : list Message
}.

Definition initialState : State :=
  {| question := []; loading := false; error := None; messages := [] |}.

(** ** The browser *)

(** A thrown value, seen through [err?.message]. *)
Record Thrown := { message : option jsstring }.

(** [new Error(msg)]. *)
Definition Error (msg : jsstring) : Thrown := {| message := Some msg |}.

(** How a promise settles. *)
Inductive Settled (A : Type) :=
| Fulfilled (a : A)
| Rejected (e : Thrown).
Arguments Fulfilled {A} a.
Arguments Rejected {A} e.

(** A [Response]: its status and what [resp.text()] and [resp.json()]
    settle to.  The page casts the parsed body to [ChatResponse] without
    looking at it; a body that is no reply object is a rejected [json_body]
    here. *)
Record Response := {
  status : N;
  text_body : Settled jsstring;
  json_body : Settled ChatResponse
}.

(** [resp.ok]. *)
Definition ok (resp : Response) : bool :=
  ((200 <=? status resp) && (status resp <=? 299))%N.

Inductive Method := GET | POST.

(** The body of the POST, before [JSON.stringify]. *)
Record ChatRequest := {
  user_id : jsstring;
  req_question : jsstring
}.

Record Request := {
  url : jsstring;
  method : Method;
  headers : list (jsstring * jsstring);
  body : option ChatRequest;
  credentials : jsstring;
  mode : option jsstring
}.

(** What the environment answers.  The oracles are indexed by the number of
    consultations made so far ([tick]). *)
Record Browser := {
  NEXT_PUBLIC_API_URL : option jsstring;
  location_origin : jsstring;
  Date_now : nat -> N;
  toLocaleTimeString : N -> jsstring;
  Math_random_toString36 : nat -> jsstring;
  fetch_settles : nat -> Request -> Settled Response
}.

(** A request on the wire, with the view as it was when [fetch] was called. *)
Record Issued := {
  request : Request;
  view_at_issue : State
}.

(** The running page: the view, the consultations of the browser so far and
    the requests issued so far, oldest first. *)
Record Sys := {
  view : State;
  tick : nat;
  issued : list Issued
}.

Definition mount : Sys := {| view := initialState; tick := 0; issued := [] |}.

(** ** Asynchronous code as a state and exception monad

    An [async] function body is a computation over the running page that
    either returns or throws.  [await] of a settled promise returns its
    value or throws its reason.  A handler runs to its end before the next
    event is handled: one request is in flight at a time, which is what the
    disabled controls of the composer are for.  What the view was when a
    request left is kept with the request ([view_at_issue]).  Handlers
    that overlap are modelled further down ([happen]). *)

Definition M (A : Type) : Type := Browser -> Sys -> Settled A * Sys.

Definition ret {A} (a : A) : M A := fun _ s => (Fulfilled a, s).

Definition throw {A} (e : Thrown) : M A := fun _ s => (Rejected e, s).

Definition bind {A B} (c : M A) (k : A -> M B) : M B :=
  fun br s =>
    match c br s with
    | (Fulfilled a, s') => k a br s'
    | (Rejected e, s') => (Rejected e, s')
    end.

Declare Scope js_scope.
Delimit Scope js_scope with js.
Notation "x <- c ;; k" := (bind c (fun x => k))
  (at level 61, c at next level, right associativity) : js_scope.
Notation "c ;; k" := (bind c (fun _ => k))
  (at level 61, right associativity) : js_scope.
Local Open Scope js_scope.

Definition await {A} (p : Settled A) : M A :=
  match p with
  | Fulfilled a => ret a
  | Rejected e => throw e
  end.

(** [try { body } catch (err) { handler } finally { cleanup }]. *)
Definition try_catch_finally {A} (body : M A) (handler : Thrown -> M A)
    (cleanup : M unit) : M A :=
  fun br s =>
    let (r, s1) :=
      match body br s with
      | (Fulfilled a, s') => (Fulfilled a, s')
      | (Rejected e, s') => handler e br s'
      end in
    match cleanup br s1 with
    | (Fulfilled _, s2) => (r, s2)
    | (Rejected e, s2) => (Rejected e, s2)
    end.

(** [try { body } catch (err) { handler }]. *)
Definition try_catch {A} (body : M A) (handler : Thrown -> M A) : M A :=
  try_catch_finally body handler (ret tt).

(** *** The state setters and the browser calls *)

Definition with_view (f : State -> State) : M unit :=
  fun _ s =>
    (Fulfilled tt, {| view := f (view s); tick := tick s; issued := issued s |}).

Definition setQuestion (v : jsstring) : M unit :=
  with_view (fun st =>
    {| question := v; loading := loading st; error := error st;
       messages := messages st |}).

Definition setLoading (v : bool) : M unit :=
  with_view (fun st =>
    {| question := question st; loading := v; error := error st;
       messages := messages st |}).

Definition setError (v : option jsstring) : M unit :=
  with_view (fun st =>
    {| question := question st; loading := loading st; error := v;
       messages := messages st |}).

(** [setMessages] with an updater function. *)
Definition setMessages (upd : list Message -> list Message) : M unit :=
  with_view (fun st =>
    {| question := question st; loading := loading st; error := error st;
       messages := upd (messages st) |}).

(** The rendered value of a state cell, as the handlers read it. *)
Definition rendered {A} (cell : State -> A) : M A :=
  fun _ s => (Fulfilled (cell (view s)), s).

(** One consultation of a browser oracle. *)
Definition consult {A} (oracle : Browser -> nat -> A) : M A :=
  fun br s =>
    (Fulfilled (oracle br (tick s)),
     {| view := view s; tick := S (tick s); issued := issued s |}).

(** [fetch(url, init)]: the request is recorded with the view of that
    moment, then the promise settles as the network decides. *)
Definition fetch (req : Request) : M Response :=
  fun br s =>
    (fetch_settles br (tick s) req,
     {| view := view s; tick := S (tick s);
        issued := issued s ++ [{| request := req; view_at_issue := view s |}] |}).

(** [process.env.NEXT_PUBLIC_API_URL || "http://127.0.0.1:8000"]. *)
Definition API_BASE (br : Browser) : jsstring :=
  or_else (NEXT_PUBLIC_API_URL br) (lit "http://127.0.0.1:8000").

(** ** The helpers of the page *)

Definition pushMessage (msg : Message) : M unit :=
  setMessages (fun prev => prev ++ [msg]).

Definition makeId (prefix : jsstring) : M jsstring :=
  now <- consult Date_now ;;
  rnd <- consult Math_random_toString36 ;;
  ret (prefix ++ toString 36 now ++ slice 2 7 rnd).

Definition nowLabel : M jsstring :=
  now <- consult Date_now ;;
  fun br => ret (toLocaleTimeString br now) br.

(** ** The welcome message *)

Definition fallbackWelcome : jsstring :=
  lit "Hi there! I'm Chatty, how can I assist you today?".

Definition welcomeRequest (br : Browser) : Request :=
  {| url := API_BASE br ++ lit "/chat/";
     method := GET;
     headers := [(lit "Accept", lit "application/json");
                 (lit "Origin", location_origin br)];
     body := None;
     credentials := lit "omit";
     mode := None |}.

Definition fetchWelcome : M unit :=
  try_catch
    (resp <- (fun br => fetch (welcomeRequest br) br) ;;
     (if negb (ok resp) then
        errorText <- await (text_body resp) ;;
        throw (Error (lit "Failed to fetch welcome: " ++ toString 10 (status resp)))
      else ret tt) ;;
     data <- await (json_body resp) ;;
     i <- makeId (lit "b_") ;;
     t <- nowLabel ;;
     pushMessage
       {| id := i; from := bot;
          text := or_else (answer data) (lit "Hi there!");
          time := t;
          meta := Some (as_partial data) |})
    (fun err =>
       i <- makeId (lit "b_") ;;
       t <- nowLabel ;;
       pushMessage
         {| id := i; from := bot;
            text := fallbackWelcome;
            time := t;
            meta := Some
              {| meta_answer := Some (Some fallbackWelcome);
                 meta_confidence := Some 1%Q;
                 meta_sources := Some [];
                 meta_cached := Some false;
                 meta_follow_up := Some None;
                 meta_redacted := None |} |}).

(** ** Sending a question *)

Definition chatRequest (br : Browser) (questionText : jsstring) : Request :=
  {| url := API_BASE br ++ lit "/chat/";
     method := POST;
     headers := [(lit "Content-Type", lit "application/json");
                 (lit "Accept", lit "application/json")];
     body := Some {| user_id := lit "web_user"; req_question := questionText |};
     credentials := lit "omit";
     mode := Some (lit "cors") |}.

Definition sendQuestion (q : option jsstring) : M unit :=
  draft <- rendered question ;;
  let questionText := trim (coalesce_to q draft) in
  if negb (truthy questionText) then
    setError (Some (lit "Please enter a question."))
  else
    setError None ;;
    setLoading true ;;
    i <- makeId (lit "u_") ;;
    t <- nowLabel ;;
    let userMsg :=
      {| id := i; from := user; text := questionText; time := t; meta := None |} in
    pushMessage userMsg ;;
    setQuestion [] ;;
    try_catch_finally
      (resp <- (fun br => fetch (chatRequest br questionText) br) ;;
       (if negb (ok resp) then
          txt <- await (text_body resp) ;;
          throw (Error (lit "Server " ++ toString 10 (status resp) ++ lit ": " ++ txt))
        else ret tt) ;;
       data <- await (json_body resp) ;;
       let botText :=
         coalesce_to (coalesce (answer data) (follow_up data)) (lit "I don't know.") in
       i <- makeId (lit "b_") ;;
       t <- nowLabel ;;
       let botMsg :=
         {| id := i; from := bot; text := botText; time := t;
            meta := Some (as_partial data) |} in
       pushMessage botMsg)
      (fun err =>
         setError (Some (coalesce_to (message err) (lit "Unknown error"))) ;;
         i <- makeId (lit "s_") ;;
         let txt := lit "Error: " ++ coalesce_to (message err) (lit "Unknown error") in
         t <- nowLabel ;;
         pushMessage
           {| id := i; from := system; text := txt; time := t; meta := None |})
      (setLoading false).

(** ** The handlers *)

(** [onKeyDown]: Enter without Shift sends, unless a reply is awaited. *)
Definition onKeyDown (key : jsstring) (shiftKey : bool) : M unit :=
  if list_eq_dec N.eq_dec key (lit "Enter") then
    if negb shiftKey then
      busy <- rendered loading ;;
      if negb busy then sendQuestion None else ret tt
    else ret tt
  else ret tt.

Definition handleFollowUpClick (follow : jsstring) : M unit :=
  sendQuestion (Some follow).

(** [renderMessage]: the text of the follow-up button of a bubble, when the
    bubble has one ([isBot && m.meta?.follow_up]). *)
Definition followUpButton (m : Message) : option jsstring :=
  match from m, meta m with
  | bot, Some p =>
      match meta_follow_up p with
      | Some (Some f) => if truthy f then Some f else None
      | _ => None
      end
  | _, _ => None
  end.

(** What the user can do with the page. *)
Inductive UiEvent :=
| Mounted
| Typed (value : jsstring)
| KeyDown (key : jsstring) (shiftKey : bool)
| ClickSend
| ClickClear
| ClickFollowUp (index : nat).

(** The textarea and the Send and Clear buttons are [disabled={loading}];
    the follow-up buttons are not. *)
Definition dispatch (ev : UiEvent) : M unit :=
  match ev with
  | Mounted => fetchWelcome
  | Typed value =>
      busy <- rendered loading ;;
      if busy then ret tt else setQuestion value
  | KeyDown key shiftKey =>
      busy <- rendered loading ;;
      if busy then ret tt else onKeyDown key shiftKey
  | ClickSend =>
      busy <- rendered loading ;;
      if busy then ret tt else sendQuestion None
  | ClickClear =>
      busy <- rendered loading ;;
      if busy then ret tt else setQuestion []
  | ClickFollowUp index =>
      shown <- rendered messages ;;
      match nth_error shown index with
      | Some m =>
          match followUpButton m with
          | Some follow => handleFollowUpClick follow
          | None => ret tt
          end
      | None => ret tt
      end
  end.

(** The page after a sequence of events, each handled to completion. *)
Fixpoint run (br : Browser) (evs : list UiEvent) (s : Sys) : Sys :=
  match evs with
  | [] => s
  | ev :: evs' => run br evs' (snd (dispatch ev br s))
  end.

(** ** Vocabulary of the statements *)

(** The input of a call [sendQuestion(q)]: [q ?? question]. *)
Definition input (q : option jsstring) (s : Sys) : jsstring :=
  coalesce_to q (question (view s)).

(** How the network settles the request of [sendQuestion(q)] started in
    [s]: the call consults the browser three times (an id and a time label)
    before it fetches. *)
Definition settlement (br : Browser) (s : Sys) (q : option jsstring)
    : Settled Response :=
  fetch_settles br (3 + tick s) (chatRequest br (trim (input q s))).

(** How the network settles the welcome request of a page in [s]. *)
Definition greeting (br : Browser) (s : Sys) : Settled Response :=
  fetch_settles br (tick s) (welcomeRequest br).

(** A request succeeds when it resolves with a 2xx status and its body
    parses as a reply; this is the reply. *)
Definition delivered (o : Settled Response) : option ChatResponse :=
  match o with
  | Fulfilled resp =>
      if ok resp then
        match json_body resp with
        | Fulfilled data => Some data
        | Rejected _ => None
        end
      else None
  | Rejected _ => None
  end.

(** The message of a thrown value, ["Unknown error"] when it has none. *)
Definition message_of (e : Thrown) : jsstring :=
  match message e with
  | Some msg => msg
  | None => lit "Unknown error"
  end.

(** The error message of a failed submission, for every network error and
    every non-2xx response: status and body of the response when the body
    can be read, the message of the failed read when it cannot, the message
    of the network error otherwise. *)
Definition failure_message (o : Settled Response) : option jsstring :=
  match o with
  | Rejected e => Some (message_of e)
  | Fulfilled resp =>
      if ok resp then None
      else
        match text_body resp with
        | Fulfilled txt =>
            Some (lit "Server " ++ toString 10 (status resp) ++ lit ": " ++ txt)
        | Rejected e => Some (message_of e)
        end
  end.

(** The questions of the POST requests issued so far. *)
Definition questions_sent (s : Sys) : list jsstring :=
  flat_map
    (fun i =>
       match body (request i) with
       | Some b => [req_question b]
       | None => []
       end)
    (issued s).

(** *** Sample browsers and replies *)

Definition sampleBrowser (o : Settled Response) : Browser :=
  {| NEXT_PUBLIC_API_URL := None;
     location_origin := lit "http://localhost:3000";
     Date_now := fun k => (1700000000000 + N.of_nat k)%N;
     toLocaleTimeString := fun _ => lit "10:00:00 AM";
     Math_random_toString36 := fun _ => lit "0.k2j4h5g6f7d";
     fetch_settles := fun _ _ => o |}.

Definition replyWith (data : ChatResponse) : Response :=
  {| status := 200;
     text_body := Fulfilled (lit "{...}");
     json_body := Fulfilled data |}.

Definition serverError : Response :=
  {| status := 500;
     text_body := Fulfilled (lit "boom");
     json_body := Rejected (Error (lit "Unexpected token b in JSON")) |}.

Definition offline : Settled Response :=
  Rejected (Error (lit "Failed to fetch")).

Definition plainAnswer : ChatResponse :=
  {| answer := Some (lit "Paris.");
     confidence := (9 # 10)%Q;
     sources := [lit "geo.md"];
     cached := false;
     follow_up := None;
     redacted := None |}.

Definition onlyFollowUp : ChatResponse :=
  {| answer := None;
     confidence := (1 # 2)%Q;
     sources := [];
     cached := false;
     follow_up := Some (lit "Tell me more ");
     redacted := None |}.

Definition emptyAnswer : ChatResponse :=
  {| answer := Some [];
     confidence := (1 # 2)%Q;
     sources := [];
     cached := true;
     follow_up := Some (lit "Ask me anything");
     redacted := None |}.

(** ** What the page shows *)

(** The confidence and sources block of a bot bubble.  The confidence is
    kept as the number that [toFixed(2)] formats. *)
Record Details := {
  shownConfidence : option number;
  cachedNote : jsstring;
  shownSources : option (list jsstring)
}.

(** One bubble of the conversation, as [renderMessage] builds it. *)
Record Bubble := {
  key : jsstring;
  justifyContent : jsstring;
  label : jsstring;
  shownTime : jsstring;
  background : jsstring;
  color : jsstring;
  bubbleText : jsstring;
  followUp : option jsstring;
  details : option Details
}.

Definition isUser (m : Message) : bool :=
  match from m with user => true | _ => false end.

Definition isBot (m : Message) : bool :=
  match from m with bot => true | _ => false end.

Definition isSystem (m : Message) : bool :=
  match from m with system => true | _ => false end.

(** [isBot && m.meta && (...)]: the block under the text of a bot bubble. *)
Definition renderDetails (m : Message) : option Details :=
  if isBot m then
    match meta m with
    | Some p =>
        Some {| shownConfidence := meta_confidence p;
                cachedNote :=
                  match meta_cached p with
                  | Some true => lit "(cached)"
                  | _ => []
                  end;
                shownSources :=
                  match meta_sources p with
                  | Some (src :: more) => Some (src :: more)
                  | _ => None
                  end |}
    | None => None
    end
  else None.

Definition renderMessage (m : Message) : Bubble :=
  {| key := id m;
     justifyContent := if isUser m then lit "flex-end" else lit "flex-start";
     label := if isUser m then lit "You"
              else if isSystem m then lit "System" else lit "Assistant";
     shownTime := time m;
     background := if isUser m then lit "#111827"
                   else if isSystem m then lit "#fef3c7" else lit "#f3f4f6";
     color := if isUser m then lit "white" else lit "#111827";
     bubbleText := text m;
     followUp := followUpButton m;
     details := renderDetails m |}.

(** The page, as the [return] of [Page] builds it. *)
Record Screen := {
  emptyNote : bool;
  bubbles : list Bubble;
  textareaValue : jsstring;
  textareaDisabled : bool;
  sendLabel : jsstring;
  sendDisabled : bool;
  clearDisabled : bool;
  errorLine : option jsstring;
  backend : jsstring
}.

Definition render (br : Browser) (st : State) : Screen :=
  {| emptyNote := Nat.eqb (List.length (messages st)) 0;
     bubbles := map renderMessage (messages st);
     textareaValue := question st;
     textareaDisabled := loading st;
     sendLabel := if loading st then lit "Sending" ++ [8230%N] else lit "Send";
     sendDisabled := loading st;
     clearDisabled := loading st;
     errorLine :=
       match error st with
       | Some e => if truthy e then Some e else None
       | None => None
       end;
     backend := API_BASE br |}.

(** ** More vocabulary *)

(** A string that is not empty and has no whitespace at either end. *)
Definition tight (t : jsstring) : bool :=
  match t with
  | [] => false
  | c :: _ => negb (is_white_space c) && negb (is_white_space (last t c))
  end.

Fixpoint starts_with (prefix s : jsstring) : bool :=
  match prefix, s with
  | [], _ => true
  | p :: prefix', c :: s' => (p =? c)%N && starts_with prefix' s'
  | _ :: _, [] => false
  end.

(** The turns the page makes: a user turn holds a tight text and no
    metadata, a bot turn holds metadata, a system turn holds an error text
    and no metadata; the id begins with the letter of the origin. *)
Definition made_by_page (m : Message) : bool :=
  match from m with
  | user =>
      starts_with (lit "u_") (id m) && tight (text m)
      && match meta m with None => true | Some _ => false end
  | bot =>
      starts_with (lit "b_") (id m)
      && match meta m with None => false | Some _ => true end
  | system =>
      starts_with (lit "s_") (id m) && starts_with (lit "Error: ") (text m)
      && match meta m with None => true | Some _ => false end
  end.

(** Every user turn is directly followed by a turn that is not a user
    turn. *)
Fixpoint answered (l : list Message) : bool :=
  match l with
  | [] => true
  | m :: l' =>
      match from m with
      | user =>
          match l' with
          | r :: l'' => negb (isUser r) && answered l''
          | [] => false
          end
      | _ => answered l'
      end
  end.

(** The requests the page makes: the welcome GET, or a chat POST of a
    tight question. *)
Definition page_request (br : Browser) (r : Request) : Prop :=
  r = welcomeRequest br
  \/ exists t : jsstring, tight t = true /\ r = chatRequest br t.

(** What handling [n] events may do to the page: turns made by the page
    are appended, at most two per event and every user turn answered;
    requests of the page are issued, at most one per event; a page that was
    not awaiting a reply is not awaiting one afterwards. *)
Definition grows (br : Browser) (n : nat) (s s' : Sys) : Prop :=
  exists (added : list Message) (sent : list Issued),
    messages (view s') = messages (view s) ++ added
    /\ issued s' = issued s ++ sent
    /\ forallb made_by_page added = true
    /\ answered added = true
    /\ Forall (fun i => page_request br (request i)) sent
    /\ List.length added <= 2 * n
    /\ List.length sent <= n
    /\ (loading (view s) = false -> loading (view s') = false).



Definition unreadable : Response :=
  {| status := 502;
     text_body := Rejected (Error (lit "network error"));
     json_body := Rejected (Error (lit "network error")) |}.

Definition unparsable : Response :=
  {| status := 200;
     text_body := Fulfilled (lit "<html>");
     json_body := Rejected (Error (lit "Unexpected token < in JSON")) |}.

(** ** Handlers that overlap

    [await fetch(...)] suspends a handler until the response arrives, and
    other handlers run in between: the follow-up buttons are not disabled
    while a reply is awaited, and nothing is while the welcome is.  Each
    asynchronous function is cut at its [fetch]: the part before, which ends
    with the request leaving, and the part after, which starts from the
    settlement.  Every state setter of the second part acts on the view of
    the moment it runs. *)

(** The call of [fetch]: the request leaves, with the view of the moment. *)
Definition issue (req : Request) : M unit :=
  fun _ s =>
    (Fulfilled tt,
     {| view := view s; tick := S (tick s);
        issued := issued s ++ [{| request := req; view_at_issue := view s |}] |}).

(** [sendQuestion] up to its [fetch]: the question sent, if one is. *)
Definition sendQuestion_begin (q : option jsstring) : M (option jsstring) :=
  draft <- rendered question ;;
  let questionText := trim (coalesce_to q draft) in
  if negb (truthy questionText) then
    setError (Some (lit "Please enter a question.")) ;;
    ret None
  else
    setError None ;;
    setLoading true ;;
    i <- makeId (lit "u_") ;;
    t <- nowLabel ;;
    let userMsg :=
      {| id := i; from := user; text := questionText; time := t; meta := None |} in
    pushMessage userMsg ;;
    setQuestion [] ;;
    (fun br => issue (chatRequest br questionText) br) ;;
    ret (Some questionText).

(** [sendQuestion] from the settlement of its request on. *)
Definition sendQuestion_resume (settled : Settled Response) : M unit :=
  try_catch_finally
    (resp <- await settled ;;
     (if negb (ok resp) then
        txt <- await (text_body resp) ;;
        throw (Error (lit "Server " ++ toString 10 (status resp) ++ lit ": " ++ txt))
      else ret tt) ;;
     data <- await (json_body resp) ;;
     let botText :=
       coalesce_to (coalesce (answer data) (follow_up data)) (lit "I don't know.") in
     i <- makeId (lit "b_") ;;
     t <- nowLabel ;;
     let botMsg :=
       {| id := i; from := bot; text := botText; time := t;
          meta := Some (as_partial data) |} in
     pushMessage botMsg)
    (fun err =>
       setError (Some (coalesce_to (message err) (lit "Unknown error"))) ;;
       i <- makeId (lit "s_") ;;
       let txt := lit "Error: " ++ coalesce_to (message err) (lit "Unknown error") in
       t <- nowLabel ;;
       pushMessage
         {| id := i; from := system; text := txt; time := t; meta := None |})
    (setLoading false).

(** [fetchWelcome] up to its [fetch]. *)
Definition fetchWelcome_begin : M unit :=
  fun br => issue (welcomeRequest br) br.

(** [fetchWelcome] from the settlement of its request on. *)
Definition fetchWelcome_resume (settled : Settled Response) : M unit :=
  try_catch
    (resp <- await settled ;;
     (if negb (ok resp) then
        errorText <- await (text_body resp) ;;
        throw (Error (lit "Failed to fetch welcome: " ++ toString 10 (status resp)))
      else ret tt) ;;
     data <- await (json_body resp) ;;
     i <- makeId (lit "b_") ;;
     t <- nowLabel ;;
     pushMessage
       {| id := i; from := bot;
          text := or_else (answer data) (lit "Hi there!");
          time := t;
          meta := Some (as_partial data) |})
    (fun err =>
       i <- makeId (lit "b_") ;;
       t <- nowLabel ;;
       pushMessage
         {| id := i; from := bot;
            text := fallbackWelcome;
            time := t;
            meta := Some
              {| meta_answer := Some (Some fallbackWelcome);
                 meta_confidence := Some 1%Q;
                 meta_sources := Some [];
                 meta_cached := Some false;
                 meta_follow_up := Some None;
                 meta_redacted := None |} |}).

(** A suspended handler. *)
Inductive Awaiting := AwaitsWelcome | AwaitsReply.

(** A call of [sendQuestion] by a handler: what it leaves suspended. *)
Definition submit (q : option jsstring) : M (option Awaiting) :=
  sent <- sendQuestion_begin q ;;
  ret (match sent with Some _ => Some AwaitsReply | None => None end).

(** [dispatch], up to the [fetch] of the handler. *)
Definition dispatch_begin (ev : UiEvent) : M (option Awaiting) :=
  match ev with
  | Mounted => fetchWelcome_begin ;; ret (Some AwaitsWelcome)
  | Typed value =>
      busy <- rendered loading ;;
      if busy then ret None else setQuestion value ;; ret None
  | KeyDown key shiftKey =>
      busy <- rendered loading ;;
      if busy then ret None
      else if list_eq_dec N.eq_dec key (lit "Enter") then
        if negb shiftKey then
          busy' <- rendered loading ;;
          if negb busy' then submit None else ret None
        else ret None
      else ret None
  | ClickSend =>
      busy <- rendered loading ;;
      if busy then ret None else submit None
  | ClickClear =>
      busy <- rendered loading ;;
      if busy then ret None else setQuestion [] ;; ret None
  | ClickFollowUp index =>
      shown <- rendered messages ;;
      match nth_error shown index with
      | Some m =>
          match followUpButton m with
          | Some follow => submit (Some follow)
          | None => ret None
          end
      | None => ret None
      end
  end.

(** The rest of a suspended handler, once its request has settled. *)
Definition resume (a : Awaiting) (settled : Settled Response) : M unit :=
  match a with
  | AwaitsWelcome => fetchWelcome_resume settled
  | AwaitsReply => sendQuestion_resume settled
  end.

(** The page with its suspended handlers, oldest first. *)
Record Live := {
  page : Sys;
  awaiting : list Awaiting
}.

(** What happens to the page: the user does something, or the request of
    the [k]-th suspended handler settles. *)
Inductive Happening :=
| Does (ev : UiEvent)
| Arrives (k : nat) (settled : Settled Response).

Definition happen (br : Browser) (h : Happening) (l : Live) : Live :=
  match h with
  | Does ev =>
      {| page := snd (dispatch_begin ev br (page l));
         awaiting :=
           awaiting l ++
           match fst (dispatch_begin ev br (page l)) with
           | Fulfilled (Some a) => [a]
           | _ => []
           end |}
  | Arrives k settled =>
      match nth_error (awaiting l) k with
      | Some a =>
          {| page := snd (resume a settled br (page l));
             awaiting := firstn k (awaiting l) ++ skipn (S k) (awaiting l) |}
      | None => l
      end
  end.

Fixpoint unfold_live (br : Browser) (hs : list Happening) (l : Live) : Live :=
  match hs with
  | [] => l
  | h :: hs' => unfold_live br hs' (happen br h l)
  end.

(** The settlement the browser of the sequential page gives to the request
    that has just left. *)
Definition settles_now (br : Browser) (s : Sys) : Settled Response :=
  match rev (issued s) with
  | i :: _ => fetch_settles br (pred (tick s)) (request i)
  | [] => Rejected {| message := None |}
  end.

(** Turns that are not user turns: greetings, replies and error notes. *)
Definition responses (l : list Message) : list Message :=
  filter (fun m => negb (isUser m)) l.

Definition questions (l : list Message) : list Message :=
  filter isUser l.

(** Two clicks on a follow-up button before the first reply: the first
    request then fails, the second is still awaited. *)
Definition overlapped : Live :=
  unfold_live (sampleBrowser offline)
    [Does Mounted;
     Arrives 0 (Fulfilled (replyWith onlyFollowUp));
     Does (ClickFollowUp 0);
     Does (ClickFollowUp 0);
     Arrives 0 (Fulfilled serverError)]
    {| page := mount; awaiting := [] |}.

(** What the first part of a handler does to the page [s]: it appends only
    user turns, one for each POST that leaves, and suspends itself exactly
    when a request leaves. *)
Definition begins (s : Sys) (out : Settled (option Awaiting) * Sys) : Prop :=
  exists (us : list Message) (rs : list Issued),
    messages (view (snd out)) = messages (view s) ++ us
    /\ issued (snd out) = issued s ++ rs
    /\ responses us = []
    /\ List.length rs =
         List.length match fst out with
                     | Fulfilled (Some a) => [a]
                     | _ => []
                     end
    /\ List.length (questions us) =
         List.length
           (questions_sent {| view := view s; tick := tick s; issued := rs |}).

(** ** Facts about [trim] *)

Lemma trimStart_blank (s : jsstring) :
  forallb is_white_space s = true -> trimStart s = [].
Proof.
  induction s as [|c s IH]; simpl; intros H; [reflexivity|].
  apply andb_prop in H as [Hc Hs]. rewrite Hc. auto.
Qed.

Lemma trimStart_nil_blank (s : jsstring) :
  trimStart s = [] -> forallb is_white_space s = true.
Proof.
  induction s as [|c s IH]; simpl; [reflexivity|].
  destruct (is_white_space c); [auto | discriminate].
Qed.

Lemma trimStart_head (s : jsstring) c t :
  trimStart s = c :: t -> is_white_space c = false.
Proof.
  induction s as [|d s IH]; simpl; [discriminate|].
  destruct (is_white_space d) eqn:E; [auto|].
  intros H; injection H as -> _. exact E.
Qed.

Lemma forallb_rev {A} (p : A -> bool) (l : list A) :
  forallb p (rev l) = forallb p l.
Proof.
  induction l as [|a l IH]; simpl; [reflexivity|].
  rewrite forallb_app, IH. simpl. rewrite andb_true_r. apply andb_comm.
Qed.

Lemma trim_blank (s : jsstring) :
  forallb is_white_space s = true -> trim s = [].
Proof.
  intros H. unfold trim, trimEnd. rewrite (trimStart_blank s H). reflexivity.
Qed.

Lemma trim_nil_blank (s : jsstring) :
  trim s = [] -> forallb is_white_space s = true.
Proof.
  unfold trim, trimEnd. intros H.
  assert (Hr : trimStart (rev (trimStart s)) = []).
  { rewrite <- (rev_involutive (trimStart (rev (trimStart s)))), H. reflexivity. }
  apply trimStart_nil_blank in Hr. rewrite forallb_rev in Hr.
  destruct (trimStart s) as [|c t] eqn:E.
  - now apply trimStart_nil_blank.
  - apply trimStart_head in E. simpl in Hr. rewrite E in Hr. discriminate.
Qed.

Lemma truthy_not_nil (s : jsstring) : truthy s = true <-> s <> [].
Proof. destruct s; simpl; split; congruence. Qed.

(** The reply is recoverable from the metadata it is stored as. *)
Lemma as_partial_inj (d d' : ChatResponse) :
  as_partial d = as_partial d' -> d = d'.
Proof.
  destruct d, d'; unfold as_partial; simpl; intros H.
  injection H; intros; subst; reflexivity.
Qed.

(** ** Running the operations *)

Arguments lit : simpl never.
Arguments toString : simpl never.
Arguments trim : simpl never.
Arguments slice : simpl never.
Arguments ok : simpl never.
Arguments chatRequest : simpl never.
Arguments welcomeRequest : simpl never.
Arguments as_partial : simpl never.
Arguments sendQuestion : simpl never.
Arguments fetchWelcome : simpl never.

(** Unfold an operation down to the state it computes. *)
Ltac run_page :=
  unfold dispatch, handleFollowUpClick, onKeyDown, sendQuestion, fetchWelcome,
    try_catch, try_catch_finally, bind, rendered;
  cbn.

(** Split on how the one request of the operation settles. *)
Ltac by_settlement :=
  match goal with
  | |- context [fetch_settles ?br ?k ?r] =>
      let resp := fresh "resp" in
      let e := fresh "e" in
      let Hok := fresh "Hok" in
      destruct (fetch_settles br k r) as [resp|e]; cbn;
      [ destruct (ok resp) eqn:Hok; cbn;
        [ destruct (json_body resp); cbn | destruct (text_body resp); cbn ]
      | ]
  end.

Lemma sendQuestion_run_blank (br : Browser) (s : Sys) (q : option jsstring) :
  trim (input q s) = [] ->
  sendQuestion q br s =
    (Fulfilled tt,
     {| view := {| question := question (view s);
                   loading := loading (view s);
                   error := Some (lit "Please enter a question.");
                   messages := messages (view s) |};
        tick := tick s;
        issued := issued s |}).
Proof.
  unfold input. intros H. run_page. rewrite H. reflexivity.
Qed.

(** C1: for an input whose trimmed form is not empty, [sendQuestion]
    issues one request; when it is issued exactly one turn, of origin
    [user], has been appended, and when the call completes exactly one more
    has: a [bot] turn if the request succeeded, a [system] turn if not. *)
Theorem sendQuestion_appends_user_then_reply
    (br : Browser) (s : Sys) (q : option jsstring) :
  trim (input q s) <> [] ->
  exists (u r : Message) (atIssue : State),
    fst (sendQuestion q br s) = Fulfilled tt
    /\ issued (snd (sendQuestion q br s)) =
         issued s ++ [{| request := chatRequest br (trim (input q s));
                         view_at_issue := atIssue |}]
    /\ messages atIssue = messages (view s) ++ [u]
    /\ from u = user
    /\ messages (view (snd (sendQuestion q br s))) = messages (view s) ++ [u; r]
    /\ from r = match delivered (settlement br s q) with
                | Some _ => bot
                | None => system
                end.
Proof.
  intros H. apply truthy_not_nil in H.
  unfold settlement, delivered, input in *. run_page. rewrite H. cbn.
  by_settlement; rewrite <- ?app_assoc; cbn;
    do 3 eexists; repeat split; reflexivity.
Qed.

(** C2: when the request succeeds with reply [data], the appended bot turn
    shows the answer if there is one, else the follow-up if there is one,
    else the literal fallback, and carries the whole reply as metadata:
    every field of the metadata is the field of the reply. *)
Theorem sendQuestion_bot_text
    (br : Browser) (s : Sys) (q : option jsstring) (data : ChatResponse) :
  trim (input q s) <> [] ->
  delivered (settlement br s q) = Some data ->
  exists (u m : Message) (p : PartialChatResponse),
    messages (view (snd (sendQuestion q br s))) = messages (view s) ++ [u; m]
    /\ from m = bot
    /\ text m = match answer data with
                | Some a => a
                | None =>
                    match follow_up data with
                    | Some f => f
                    | None => lit "I don't know."
                    end
                end
    /\ meta m = Some (as_partial data)
    /\ meta m = Some p
    /\ meta_answer p = Some (answer data)
    /\ meta_confidence p = Some (confidence data)
    /\ meta_sources p = Some (sources data)
    /\ meta_cached p = Some (cached data)
    /\ meta_follow_up p = Some (follow_up data)
    /\ meta_redacted p = redacted data.
Proof.
  intros H. apply truthy_not_nil in H.
  unfold settlement, delivered, input in *. run_page. rewrite H. cbn.
  by_settlement; intros D; try discriminate D.
  injection D as ->. rewrite <- app_assoc. cbn.
  exists {| id := lit "u_" ++ toString 36 (Date_now br (tick s))
                  ++ slice 2 7 (Math_random_toString36 br (S (tick s)));
            from := user;
            text := trim (coalesce_to q (question (view s)));
            time := toLocaleTimeString br (Date_now br (S (S (tick s))));
            meta := None |}.
  eexists. exists (as_partial data).
  split; [reflexivity|]. split; [reflexivity|].
  split; [destruct (answer data), (follow_up data); reflexivity|].
  split; [reflexivity|]. split; [reflexivity|].
  unfold as_partial. cbn. repeat split.
Qed.

(** C4: an input that is empty or all whitespace appends nothing, issues no
    request, leaves the awaiting flag as it was and sets the validation
    message. *)
Theorem sendQuestion_blank
    (br : Browser) (s : Sys) (q : option jsstring) :
  forallb is_white_space (input q s) = true ->
  messages (view (snd (sendQuestion q br s))) = messages (view s)
  /\ issued (snd (sendQuestion q br s)) = issued s
  /\ loading (view (snd (sendQuestion q br s))) = loading (view s)
  /\ error (view (snd (sendQuestion q br s))) =
       Some (lit "Please enter a question.").
Proof.
  intros H. rewrite (sendQuestion_run_blank br s q (trim_blank _ H)).
  repeat split.
Qed.

(** C7: a call that issues a request has set the awaiting flag and cleared
    the previous error by the time the request is issued, and has cleared
    the flag when it completes, however the request settles. *)
Theorem sendQuestion_loading_bracket
    (br : Browser) (s : Sys) (q : option jsstring) :
  trim (input q s) <> [] ->
  exists atIssue : State,
    issued (snd (sendQuestion q br s)) =
      issued s ++ [{| request := chatRequest br (trim (input q s));
                      view_at_issue := atIssue |}]
    /\ loading atIssue = true
    /\ error atIssue = None
    /\ loading (view (snd (sendQuestion q br s))) = false.
Proof.
  intros H. apply truthy_not_nil in H.
  unfold input in *. run_page. rewrite H. cbn.
  by_settlement; eexists; repeat split; reflexivity.
Qed.

(** C6, as the page does it: for every network error and every non-2xx
    response, the error message of the failed submission becomes the error
    indicator, and the text of the appended [system] turn is that message
    after the prefix ["Error: "]. *)
Theorem sendQuestion_failure_surfaced
    (br : Browser) (s : Sys) (q : option jsstring) (msg : jsstring) :
  trim (input q s) <> [] ->
  failure_message (settlement br s q) = Some msg ->
  error (view (snd (sendQuestion q br s))) = Some msg
  /\ exists (u m : Message),
       messages (view (snd (sendQuestion q br s))) = messages (view s) ++ [u; m]
       /\ from m = system
       /\ text m = lit "Error: " ++ msg.
Proof.
  intros H. apply truthy_not_nil in H.
  unfold settlement, failure_message, input in *. run_page. rewrite H. cbn.
  by_settlement; intros F; try discriminate F;
    injection F as <-; rewrite <- app_assoc; cbn;
    (split; [reflexivity|]); do 2 eexists; repeat split.
Qed.

(** C9, as the page does it: every [user] turn appended by [sendQuestion]
    holds the input with the whitespace at both ends removed. *)
Theorem sendQuestion_user_text_trimmed
    (br : Browser) (s : Sys) (q : option jsstring) (added : list Message) :
  messages (view (snd (sendQuestion q br s))) = messages (view s) ++ added ->
  forall u : Message, In u added -> from u = user -> text u = trim (input q s).
Proof.
  destruct (trim (input q s)) as [|c t] eqn:E.
  - rewrite (sendQuestion_run_blank br s q E). cbn. intros Hadd.
    rewrite <- (app_nil_r (messages (view s))) in Hadd at 1.
    apply app_inv_head in Hadd. subst added. intros u [].
  - assert (H : truthy (trim (input q s)) = true) by (rewrite E; reflexivity).
    unfold input in *. run_page. rewrite H. cbn. rewrite E.
    by_settlement; rewrite <- app_assoc; cbn; intros Hadd;
      apply app_inv_head in Hadd; subst added;
      intros u [<-|[<-|[]]]; cbn; intros Hu; try discriminate Hu; reflexivity.
Qed.

(** ** The welcome message *)

(** C3: when the welcome request fails, by a network error or a non-2xx
    status, [fetchWelcome] still completes normally, leaves the error
    indicator alone and appends one [bot] turn with the fixed greeting and
    the fixed metadata. *)
Theorem fetchWelcome_fallback (br : Browser) (s : Sys) :
  (exists e, greeting br s = Rejected e)
  \/ (exists resp, greeting br s = Fulfilled resp /\ ok resp = false) ->
  fst (fetchWelcome br s) = Fulfilled tt
  /\ error (view (snd (fetchWelcome br s))) = error (view s)
  /\ exists (m : Message) (p : PartialChatResponse),
       messages (view (snd (fetchWelcome br s))) = messages (view s) ++ [m]
       /\ from m = bot
       /\ text m = lit "Hi there! I'm Chatty, how can I assist you today?"
       /\ meta m = Some p
       /\ meta_confidence p = Some 1%Q
       /\ meta_sources p = Some []
       /\ meta_cached p = Some false
       /\ meta_follow_up p = Some None.
Proof.
  unfold greeting. run_page. intros [[e0 F]|[resp0 [F Hbad]]]; rewrite F; cbn.
  - repeat split. do 2 eexists; repeat split.
  - rewrite Hbad. cbn.
    destruct (text_body resp0); cbn;
      (repeat split; do 2 eexists; repeat split).
Qed.

(** C10: when the welcome request succeeds with reply [data], the appended
    bot turn shows the answer if it is a non-empty string and ["Hi there!"]
    otherwise, whatever the follow-up is; ["I don't know."] is shown only if
    it is the answer. *)
Theorem fetchWelcome_text (br : Browser) (s : Sys) (data : ChatResponse) :
  delivered (greeting br s) = Some data ->
  exists m : Message,
    messages (view (snd (fetchWelcome br s))) = messages (view s) ++ [m]
    /\ from m = bot
    /\ text m = match answer data with
                | Some (c :: a) => c :: a
                | Some [] | None => lit "Hi there!"
                end
    /\ (text m = lit "I don't know." -> answer data = Some (lit "I don't know.")).
Proof.
  unfold greeting, delivered. run_page.
  by_settlement; intros D; try discriminate D.
  injection D as ->. eexists; repeat split.
  - destruct (answer data) as [[|c a]|]; reflexivity.
  - destruct (answer data) as [[|c a]|]; cbn; intros T;
      try (vm_compute in T; discriminate T).
    now rewrite T.
Qed.

(** ** The message store only grows *)

Lemma sendQuestion_extends (br : Browser) (s : Sys) (q : option jsstring) :
  exists added,
    messages (view (snd (sendQuestion q br s))) = messages (view s) ++ added.
Proof.
  destruct (trim (input q s)) as [|c t] eqn:E.
  - rewrite (sendQuestion_run_blank br s q E). exists []. cbn.
    now rewrite app_nil_r.
  - assert (H : truthy (trim (input q s)) = true) by (rewrite E; reflexivity).
    unfold input in *. run_page. rewrite H. cbn.
    by_settlement; rewrite <- app_assoc; eexists; reflexivity.
Qed.

Lemma fetchWelcome_extends (br : Browser) (s : Sys) :
  exists added,
    messages (view (snd (fetchWelcome br s))) = messages (view s) ++ added.
Proof.
  run_page. by_settlement; eexists; reflexivity.
Qed.

Lemma unchanged_extends (old new : list Message) :
  new = old -> exists added : list Message, new = old ++ added.
Proof. intros ->. exists []. now rewrite app_nil_r. Qed.

Lemma dispatch_extends (br : Browser) (ev : UiEvent) (s : Sys) :
  exists added,
    messages (view (snd (dispatch ev br s))) = messages (view s) ++ added.
Proof.
  destruct ev as [|value|key shiftKey| | |index].
  - apply fetchWelcome_extends.
  - unfold dispatch, bind, rendered. cbn.
    destruct (loading (view s)); now apply unchanged_extends.
  - unfold dispatch, onKeyDown, bind, rendered. cbn.
    destruct (loading (view s)) eqn:L; [now apply unchanged_extends|].
    destruct (list_eq_dec N.eq_dec key (lit "Enter")); [|now apply unchanged_extends].
    destruct shiftKey; cbn; [now apply unchanged_extends|].
    rewrite L. cbn. apply sendQuestion_extends.
  - unfold dispatch, bind, rendered. cbn.
    destruct (loading (view s)); [now apply unchanged_extends|].
    apply sendQuestion_extends.
  - unfold dispatch, bind, rendered. cbn.
    destruct (loading (view s)); now apply unchanged_extends.
  - unfold dispatch, handleFollowUpClick, bind, rendered. cbn.
    destruct (nth_error (messages (view s)) index) as [m|];
      [|now apply unchanged_extends].
    destruct (followUpButton m); [|now apply unchanged_extends].
    apply sendQuestion_extends.
Qed.

Lemma run_extends (br : Browser) (evs : list UiEvent) (s : Sys) :
  exists added, messages (view (run br evs s)) = messages (view s) ++ added.
Proof.
  revert s. induction evs as [|ev evs IH]; intros s; cbn.
  - now apply unchanged_extends.
  - destruct (IH (snd (dispatch ev br s))) as [later Hl].
    destruct (dispatch_extends br ev s) as [first Hf].
    exists (first ++ later). now rewrite Hl, Hf, app_assoc.
Qed.

(** C5: whatever the user does, the turns already in the store stay where
    they are, unchanged, and new turns go after them. *)
Theorem messages_append_only (br : Browser) (evs : list UiEvent) (s : Sys) :
  (exists added, messages (view (run br evs s)) = messages (view s) ++ added)
  /\ (forall (i : nat) (m : Message),
        nth_error (messages (view s)) i = Some m ->
        nth_error (messages (view (run br evs s))) i = Some m).
Proof.
  destruct (run_extends br evs s) as [added H].
  split; [now exists added|].
  intros i m Hi. rewrite H, nth_error_app1; [exact Hi|].
  apply nth_error_Some. congruence.
Qed.

(** ** Follow-up suggestions *)

Lemma sendQuestion_questions (br : Browser) (s : Sys) (q : option jsstring) :
  questions_sent (snd (sendQuestion q br s)) =
    questions_sent s ++
    (if truthy (trim (input q s)) then [trim (input q s)] else []).
Proof.
  unfold questions_sent.
  destruct (trim (input q s)) as [|c t] eqn:E.
  - rewrite (sendQuestion_run_blank br s q E). cbn. now rewrite app_nil_r.
  - assert (H : truthy (trim (input q s)) = true) by (rewrite E; reflexivity).
    unfold input in *. run_page. rewrite H. cbn. rewrite E.
    by_settlement; rewrite flat_map_app; reflexivity.
Qed.

(** C8, as the page does it: a click on the follow-up button of a bubble,
    showing [Y], sends [Y] with the whitespace at both ends removed,
    whatever the draft is, and sends nothing when nothing is left. *)
Theorem followUp_click_sends_trimmed
    (br : Browser) (s : Sys) (i : nat) (m : Message) (Y : jsstring) :
  nth_error (messages (view s)) i = Some m ->
  followUpButton m = Some Y ->
  questions_sent (snd (dispatch (ClickFollowUp i) br s)) =
    questions_sent s ++ (if truthy (trim Y) then [trim Y] else []).
Proof.
  intros Hi Hb.
  assert (E : dispatch (ClickFollowUp i) br s = sendQuestion (Some Y) br s).
  { unfold dispatch, handleFollowUpClick, bind at 1, rendered. cbn.
    now rewrite Hi, Hb. }
  rewrite E. apply sendQuestion_questions.
Qed.

(** ** The statements at sample inputs *)

Example toString_status : toString 10 500 = lit "500".
Proof. reflexivity. Qed.

Example toString_base36 : toString 36 1295 = lit "zz".
Proof. reflexivity. Qed.

Example trim_both_ends : trim (lit "  hi there  ") = lit "hi there".
Proof. reflexivity. Qed.

Lemma sendQuestion_appends_user_then_reply_witness :
  trim (input (Some (lit " hi ")) mount) <> []
  /\ map from
       (messages (view (snd (sendQuestion (Some (lit " hi "))
                               (sampleBrowser (Fulfilled (replyWith plainAnswer)))
                               mount))))
     = [user; bot].
Proof.
  assert (H : trim (input (Some (lit " hi ")) mount) <> [])
    by (vm_compute; discriminate).
  split; [exact H|].
  destruct (sendQuestion_appends_user_then_reply
              (sampleBrowser (Fulfilled (replyWith plainAnswer))) mount
              (Some (lit " hi ")) H)
    as (u & r & st & _ & _ & _ & Hu & Hm & Hr).
  rewrite Hm. cbn. rewrite Hu, Hr. reflexivity.
Defined.

Lemma sendQuestion_bot_text_witness :
  trim (input (Some (lit "hi")) mount) <> []
  /\ delivered (settlement (sampleBrowser (Fulfilled (replyWith onlyFollowUp)))
                  mount (Some (lit "hi"))) = Some onlyFollowUp
  /\ option_map text
       (nth_error
          (messages (view (snd (sendQuestion (Some (lit "hi"))
                                  (sampleBrowser (Fulfilled (replyWith onlyFollowUp)))
                                  mount)))) 1)
     = Some (lit "Tell me more ").
Proof.
  assert (H : trim (input (Some (lit "hi")) mount) <> [])
    by (vm_compute; discriminate).
  assert (D : delivered (settlement (sampleBrowser (Fulfilled (replyWith onlyFollowUp)))
                           mount (Some (lit "hi"))) = Some onlyFollowUp)
    by reflexivity.
  split; [exact H|]. split; [exact D|].
  destruct (sendQuestion_bot_text _ _ _ _ H D) as (u & m & p & Hm & _ & Ht & _).
  rewrite Hm. cbn. rewrite Ht. reflexivity.
Defined.

Lemma fetchWelcome_fallback_witness :
  ((exists e, greeting (sampleBrowser offline) mount = Rejected e)
   \/ (exists resp, greeting (sampleBrowser offline) mount = Fulfilled resp
                    /\ ok resp = false))
  /\ fst (fetchWelcome (sampleBrowser offline) mount) = Fulfilled tt.
Proof.
  assert (H : (exists e, greeting (sampleBrowser offline) mount = Rejected e)
              \/ (exists resp, greeting (sampleBrowser offline) mount = Fulfilled resp
                               /\ ok resp = false))
    by (left; eexists; reflexivity).
  split; [exact H|].
  exact (proj1 (fetchWelcome_fallback (sampleBrowser offline) mount H)).
Defined.

Lemma sendQuestion_blank_witness :
  forallb is_white_space (input (Some [32; 9; 10; 160]%N) mount) = true
  /\ error (view (snd (sendQuestion (Some [32; 9; 10; 160]%N)
                         (sampleBrowser offline) mount)))
     = Some (lit "Please enter a question.").
Proof.
  assert (H : forallb is_white_space (input (Some [32; 9; 10; 160]%N) mount) = true)
    by reflexivity.
  split; [exact H|].
  exact (proj2 (proj2 (proj2 (sendQuestion_blank (sampleBrowser offline) mount _ H)))).
Defined.

Lemma messages_append_only_witness :
  exists m : Message,
    nth_error
      (messages (view (run (sampleBrowser offline) [Mounted] mount))) 0 = Some m
    /\ nth_error
         (messages (view (run (sampleBrowser offline)
                            [Typed (lit "hi"); ClickSend]
                            (run (sampleBrowser offline) [Mounted] mount)))) 0
       = Some m.
Proof.
  destruct (nth_error
              (messages (view (run (sampleBrowser offline) [Mounted] mount))) 0)
    as [m|] eqn:E; [|vm_compute in E; discriminate E].
  exists m. split; [reflexivity|].
  exact (proj2 (messages_append_only (sampleBrowser offline)
                  [Typed (lit "hi"); ClickSend]
                  (run (sampleBrowser offline) [Mounted] mount)) 0 m E).
Defined.

Lemma sendQuestion_failure_surfaced_witness :
  trim (input (Some (lit "hi")) mount) <> []
  /\ failure_message (settlement (sampleBrowser (Fulfilled serverError)) mount
                        (Some (lit "hi"))) = Some (lit "Server 500: boom")
  /\ error (view (snd (sendQuestion (Some (lit "hi"))
                         (sampleBrowser (Fulfilled serverError)) mount)))
     = Some (lit "Server 500: boom").
Proof.
  assert (H : trim (input (Some (lit "hi")) mount) <> [])
    by (vm_compute; discriminate).
  assert (F : failure_message (settlement (sampleBrowser (Fulfilled serverError))
                                 mount (Some (lit "hi")))
              = Some (lit "Server 500: boom"))
    by reflexivity.
  split; [exact H|]. split; [exact F|].
  exact (proj1 (sendQuestion_failure_surfaced _ _ _ _ H F)).
Defined.

Lemma sendQuestion_loading_bracket_witness :
  trim (input (Some (lit "hi")) mount) <> []
  /\ loading (view (snd (sendQuestion (Some (lit "hi"))
                           (sampleBrowser offline) mount))) = false.
Proof.
  assert (H : trim (input (Some (lit "hi")) mount) <> [])
    by (vm_compute; discriminate).
  split; [exact H|].
  destruct (sendQuestion_loading_bracket (sampleBrowser offline) mount
              (Some (lit "hi")) H) as (st & _ & _ & _ & Hl).
  exact Hl.
Defined.

Lemma followUp_click_sends_trimmed_witness :
  exists m : Message,
    nth_error
      (messages (view (run (sampleBrowser (Fulfilled (replyWith onlyFollowUp)))
                         [Mounted] mount))) 0 = Some m
    /\ followUpButton m = Some (lit "Tell me more ")
    /\ questions_sent
         (snd (dispatch (ClickFollowUp 0)
                 (sampleBrowser (Fulfilled (replyWith onlyFollowUp)))
                 (run (sampleBrowser (Fulfilled (replyWith onlyFollowUp)))
                    [Mounted] mount)))
       = [lit "Tell me more"].
Proof.
  destruct (nth_error
              (messages (view (run (sampleBrowser (Fulfilled (replyWith onlyFollowUp)))
                                 [Mounted] mount))) 0)
    as [m|] eqn:E; [|vm_compute in E; discriminate E].
  assert (B : followUpButton m = Some (lit "Tell me more "))
    by (vm_compute in E; injection E as <-; reflexivity).
  exists m. split; [reflexivity|]. split; [exact B|].
  rewrite (followUp_click_sends_trimmed _ _ _ _ _ E B). reflexivity.
Defined.

Lemma sendQuestion_user_text_trimmed_witness :
  exists (added : list Message) (u : Message),
    messages (view (snd (sendQuestion (Some (lit "  hello  "))
                           (sampleBrowser offline) mount)))
      = messages (view mount) ++ added
    /\ In u added
    /\ from u = user
    /\ text u = lit "hello".
Proof.
  destruct (messages (view (snd (sendQuestion (Some (lit "  hello  "))
                                   (sampleBrowser offline) mount))))
    as [|u added] eqn:E; [vm_compute in E; discriminate E|].
  assert (U : from u = user) by (vm_compute in E; injection E as <- _; reflexivity).
  exists (u :: added), u.
  split; [reflexivity|]. split; [now left|]. split; [exact U|].
  exact (sendQuestion_user_text_trimmed (sampleBrowser offline) mount
           (Some (lit "  hello  ")) (u :: added) E u (or_introl eq_refl) U).
Defined.

Lemma fetchWelcome_text_witness :
  delivered (greeting (sampleBrowser (Fulfilled (replyWith emptyAnswer))) mount)
    = Some emptyAnswer
  /\ option_map text
       (nth_error
          (messages (view (snd (fetchWelcome
                                  (sampleBrowser (Fulfilled (replyWith emptyAnswer)))
                                  mount)))) 0)
     = Some (lit "Hi there!").
Proof.
  assert (D : delivered (greeting (sampleBrowser (Fulfilled (replyWith emptyAnswer)))
                           mount) = Some emptyAnswer)
    by reflexivity.
  split; [exact D|].
  destruct (fetchWelcome_text _ _ _ D) as (m & Hm & _ & Ht & _).
  rewrite Hm. cbn. rewrite Ht. reflexivity.
Defined.

(** ** Where the page differs from a literal reading *)

(** C6: after a 500 response with body [boom] the error indicator is
    ["Server 500: boom"], and no turn of the conversation has that as its
    text: the system turn reads ["Error: Server 500: boom"].  After a 502
    response whose body cannot be read the indicator is the message of the
    failed read, without the status. *)
Lemma system_turn_text_is_prefixed :
  failure_message (settlement (sampleBrowser (Fulfilled serverError)) mount
                     (Some (lit "hi"))) = Some (lit "Server 500: boom")
  /\ error (view (snd (sendQuestion (Some (lit "hi"))
                         (sampleBrowser (Fulfilled serverError)) mount)))
     = Some (lit "Server 500: boom")
  /\ map (fun m => (from m, text m))
       (messages (view (snd (sendQuestion (Some (lit "hi"))
                               (sampleBrowser (Fulfilled serverError)) mount))))
     = [(user, lit "hi"); (system, lit "Error: Server 500: boom")]
  /\ (forall m : Message,
        In m (messages (view (snd (sendQuestion (Some (lit "hi"))
                                     (sampleBrowser (Fulfilled serverError)) mount)))) ->
        text m <> lit "Server 500: boom")
  /\ ok unreadable = false
  /\ error (view (snd (sendQuestion (Some (lit "hi"))
                         (sampleBrowser (Fulfilled unreadable)) mount)))
     = Some (lit "network error").
Proof.
  split; [reflexivity|]. split; [reflexivity|]. split; [reflexivity|].
  split; [|split; reflexivity].
  vm_compute. intros m [<-|[<-|[]]]; discriminate.
Qed.

(** C8: the welcome reply suggests ["Tell me more "], with a space at the
    end; the button shows it, and a click sends ["Tell me more"]. *)
Lemma followUp_click_question_differs :
  option_map followUpButton
    (nth_error
       (messages (view (run (sampleBrowser (Fulfilled (replyWith onlyFollowUp)))
                          [Mounted] mount))) 0)
    = Some (Some (lit "Tell me more "))
  /\ questions_sent
       (run (sampleBrowser (Fulfilled (replyWith onlyFollowUp)))
          [Mounted; ClickFollowUp 0] mount)
     = [lit "Tell me more"]
  /\ lit "Tell me more" <> lit "Tell me more ".
Proof.
  repeat split. vm_compute. discriminate.
Qed.

(** C9: the user types ["  hello  "] and sends; the user turn reads
    ["hello"]. *)
Lemma user_turn_text_is_not_verbatim :
  input None (run (sampleBrowser (Fulfilled (replyWith plainAnswer)))
                [Typed (lit "  hello  ")] mount)
    = lit "  hello  "
  /\ map (fun m => (from m, text m))
       (messages (view (run (sampleBrowser (Fulfilled (replyWith plainAnswer)))
                          [Typed (lit "  hello  "); ClickSend] mount)))
     = [(user, lit "hello"); (bot, lit "Paris.")]
  /\ lit "hello" <> lit "  hello  ".
Proof.
  repeat split. vm_compute. discriminate.
Qed.

(** ** More facts about strings *)

Lemma trimStart_keeps_last (l : jsstring) (c : code_unit) :
  is_white_space c = false -> exists l', trimStart (l ++ [c]) = l' ++ [c].
Proof.
  intros Hc. induction l as [|d l IH]; simpl.
  - rewrite Hc. now exists [].
  - destruct (is_white_space d); [exact IH|]. now exists (d :: l).
Qed.

Lemma trimStart_fixed (t : jsstring) (c : code_unit) :
  is_white_space c = false -> trimStart (c :: t) = c :: t.
Proof. intros Hc. simpl. now rewrite Hc. Qed.

Lemma trim_tight (s : jsstring) : trim s <> [] -> tight (trim s) = true.
Proof.
  unfold trim, trimEnd. intros Hne.
  destruct (trimStart s) as [|c t] eqn:Es; [now elim Hne|].
  pose proof (trimStart_head _ _ _ Es) as Hc.
  cbn [rev] in *.
  destruct (trimStart_keeps_last (rev t) c Hc) as [l' El].
  destruct (trimStart (rev t ++ [c])) as [|d rest] eqn:Ed.
  - now destruct l'.
  - pose proof (trimStart_head _ _ _ Ed) as Hd.
    assert (Hhead : rev (d :: rest) = c :: rev l')
      by (rewrite El, rev_app_distr; reflexivity).
    rewrite Hhead. unfold tight. rewrite Hc. cbn [negb andb].
    rewrite <- Hhead. cbn [rev]. now rewrite last_last, Hd.
Qed.

Lemma tight_trim (t : jsstring) : tight t = true -> trim t = t.
Proof.
  destruct t as [|c t]; [discriminate|].
  unfold tight. intros H. apply andb_prop in H as [Hc Hl].
  apply negb_true_iff in Hc, Hl.
  unfold trim, trimEnd. rewrite (trimStart_fixed t c Hc).
  assert (Hne : c :: t <> []) by discriminate.
  rewrite (app_removelast_last c Hne) at 1.
  rewrite rev_app_distr. cbn [rev app].
  rewrite (trimStart_fixed _ _ Hl).
  change (last (c :: t) c :: rev (removelast (c :: t)))
    with (rev [last (c :: t) c] ++ rev (removelast (c :: t))).
  rewrite <- rev_app_distr, rev_involutive.
  symmetry. now apply app_removelast_last.
Qed.

Lemma tight_truthy (t : jsstring) : tight t = true -> truthy t = true.
Proof. destruct t; [discriminate | reflexivity]. Qed.

Lemma starts_with_app (p s : jsstring) : starts_with p (p ++ s) = true.
Proof.
  induction p as [|c p IH]; [reflexivity|].
  cbn. now rewrite N.eqb_refl.
Qed.

Lemma starts_with_first (p s : jsstring) (c : code_unit) :
  starts_with (c :: p) s = true -> exists s', s = c :: s'.
Proof.
  destruct s as [|d s]; [discriminate|]. cbn. intros H.
  apply andb_prop in H as [H _]. apply N.eqb_eq in H. subst. now exists s.
Qed.






Lemma trim_idem_tight (s : jsstring) : trim (trim s) = trim s.
Proof.
  destruct (trim s) as [|c t] eqn:E; [reflexivity|].
  rewrite <- E. apply tight_trim, trim_tight. congruence.
Qed.

(** X19: trimming twice is trimming once, and what is left is empty or has
    no whitespace at either end. *)
Theorem trim_idempotent (s : jsstring) :
  trim (trim s) = trim s /\ (trim s = [] \/ tight (trim s) = true).
Proof.
  split; [apply trim_idem_tight|].
  destruct (trim s) as [|c t] eqn:E; [now left|].
  right. rewrite <- E. apply trim_tight. congruence.
Qed.

(** ** The welcome message, whatever the network does *)

(** X1: [fetchWelcome] always completes normally, issues the one welcome
    request, appends exactly one bot turn with metadata and leaves the
    draft, the awaiting flag and the error indicator as they were. *)
Theorem fetchWelcome_one_bot_turn (br : Browser) (s : Sys) :
  exists m : Message,
    fst (fetchWelcome br s) = Fulfilled tt
    /\ messages (view (snd (fetchWelcome br s))) = messages (view s) ++ [m]
    /\ from m = bot
    /\ meta m <> None
    /\ issued (snd (fetchWelcome br s)) =
         issued s ++ [{| request := welcomeRequest br; view_at_issue := view s |}]
    /\ question (view (snd (fetchWelcome br s))) = question (view s)
    /\ loading (view (snd (fetchWelcome br s))) = loading (view s)
    /\ error (view (snd (fetchWelcome br s))) = error (view s).
Proof.
  run_page. destruct s as [[dr ld er ms] tk iss]. cbn.
  by_settlement; eexists; repeat split; discriminate.
Qed.

(** X2: a welcome reply with a 2xx status whose body does not parse gives
    the fixed greeting as well, with the fixed metadata. *)
Theorem fetchWelcome_unparsable_body
    (br : Browser) (s : Sys) (resp : Response) (e : Thrown) :
  greeting br s = Fulfilled resp ->
  ok resp = true ->
  json_body resp = Rejected e ->
  exists m : Message,
    messages (view (snd (fetchWelcome br s))) = messages (view s) ++ [m]
    /\ from m = bot
    /\ text m = fallbackWelcome
    /\ meta m = Some {| meta_answer := Some (Some fallbackWelcome);
                        meta_confidence := Some 1%Q;
                        meta_sources := Some [];
                        meta_cached := Some false;
                        meta_follow_up := Some None;
                        meta_redacted := None |}.
Proof.
  unfold greeting. intros F Hok J. run_page. rewrite F. cbn.
  rewrite Hok. cbn. rewrite J. cbn.
  eexists; repeat split.
Qed.

(** ** Failed submissions *)

(** X3: whenever no reply is delivered, the error indicator holds a message
    and the appended system turn, without metadata, reads ["Error: "]
    followed by that message; the page shows the indicator unless the
    message is empty. *)
Theorem sendQuestion_failure_consistent
    (br : Browser) (s : Sys) (q : option jsstring) :
  trim (input q s) <> [] ->
  delivered (settlement br s q) = None ->
  exists (msg : jsstring) (u m : Message),
    error (view (snd (sendQuestion q br s))) = Some msg
    /\ errorLine (render br (view (snd (sendQuestion q br s)))) =
         (if truthy msg then Some msg else None)
    /\ messages (view (snd (sendQuestion q br s))) = messages (view s) ++ [u; m]
    /\ from m = system
    /\ text m = lit "Error: " ++ msg
    /\ meta m = None.
Proof.
  intros H. apply truthy_not_nil in H.
  unfold settlement, delivered, input, render in *. run_page. rewrite H. cbn.
  by_settlement; intros D; try discriminate D;
    rewrite <- app_assoc; cbn; do 3 eexists; repeat split.
Qed.

(** X4: a thrown value without a message is reported as ["Unknown
    error"], in the indicator and in the system turn. *)
Theorem sendQuestion_unknown_error
    (br : Browser) (s : Sys) (q : option jsstring) (e : Thrown) :
  trim (input q s) <> [] ->
  settlement br s q = Rejected e ->
  message e = None ->
  error (view (snd (sendQuestion q br s))) = Some (lit "Unknown error")
  /\ exists u m : Message,
       messages (view (snd (sendQuestion q br s))) = messages (view s) ++ [u; m]
       /\ from m = system
       /\ text m = lit "Error: Unknown error".
Proof.
  intros H F Hm. apply truthy_not_nil in H.
  unfold settlement, input in *. cbn in F. run_page. rewrite H. cbn. rewrite F. cbn.
  rewrite Hm, <- app_assoc. cbn.
  split; [reflexivity|]. do 2 eexists; repeat split.
Qed.

(** X5: a 2xx response whose body does not parse gives no bot turn: the
    parser's message goes to the indicator and to a system turn. *)
Theorem sendQuestion_unparsable_body
    (br : Browser) (s : Sys) (q : option jsstring)
    (resp : Response) (e : Thrown) (msg : jsstring) :
  trim (input q s) <> [] ->
  settlement br s q = Fulfilled resp ->
  ok resp = true ->
  json_body resp = Rejected e ->
  message e = Some msg ->
  error (view (snd (sendQuestion q br s))) = Some msg
  /\ exists u m : Message,
       messages (view (snd (sendQuestion q br s))) = messages (view s) ++ [u; m]
       /\ from u = user
       /\ from m = system
       /\ text m = lit "Error: " ++ msg.
Proof.
  intros H F Hok J Hm. apply truthy_not_nil in H.
  unfold settlement, input in *. cbn in F. run_page. rewrite H. cbn. rewrite F. cbn.
  rewrite Hok. cbn. rewrite J. cbn. rewrite Hm, <- app_assoc. cbn.
  split; [reflexivity|]. do 2 eexists; repeat split.
Qed.

(** X6: when the status is not 2xx and the body cannot be read either, the
    message reported is the one of the failed read; the status is not
    mentioned. *)
Theorem sendQuestion_unreadable_body
    (br : Browser) (s : Sys) (q : option jsstring)
    (resp : Response) (e : Thrown) (msg : jsstring) :
  trim (input q s) <> [] ->
  settlement br s q = Fulfilled resp ->
  ok resp = false ->
  text_body resp = Rejected e ->
  message e = Some msg ->
  error (view (snd (sendQuestion q br s))) = Some msg
  /\ exists u m : Message,
       messages (view (snd (sendQuestion q br s))) = messages (view s) ++ [u; m]
       /\ from m = system
       /\ text m = lit "Error: " ++ msg.
Proof.
  intros H F Hok J Hm. apply truthy_not_nil in H.
  unfold settlement, input in *. cbn in F. run_page. rewrite H. cbn. rewrite F. cbn.
  rewrite Hok. cbn. rewrite J. cbn. rewrite Hm, <- app_assoc. cbn.
  split; [reflexivity|]. do 2 eexists; repeat split.
Qed.

(** ** The draft and the follow-up button after a submission *)

(** X8: a submission empties the draft exactly when it sends a request,
    also when the text sent was not the draft; a blank input leaves the
    draft as it was. *)
Theorem sendQuestion_draft
    (br : Browser) (s : Sys) (q : option jsstring) :
  question (view (snd (sendQuestion q br s))) =
    if truthy (trim (input q s)) then [] else question (view s).
Proof.
  destruct (trim (input q s)) as [|c t] eqn:E.
  - now rewrite (sendQuestion_run_blank br s q E).
  - assert (H : truthy (trim (input q s)) = true) by (rewrite E; reflexivity).
    unfold input in *. run_page. rewrite H. cbn.
    by_settlement; reflexivity.
Qed.

(** X10: after a delivered reply the new bot bubble has a follow-up button
    exactly when the reply's follow-up is a non-empty string, whether or
    not the reply has an answer; the user bubble has none.  When there is no
    answer, the button repeats the text of the bubble. *)
Theorem sendQuestion_followUp_button
    (br : Browser) (s : Sys) (q : option jsstring) (data : ChatResponse) :
  trim (input q s) <> [] ->
  delivered (settlement br s q) = Some data ->
  exists u m : Message,
    messages (view (snd (sendQuestion q br s))) = messages (view s) ++ [u; m]
    /\ followUp (renderMessage u) = None
    /\ followUp (renderMessage m) =
         match follow_up data with
         | Some (c :: f) => Some (c :: f)
         | Some [] | None => None
         end
    /\ (answer data = None ->
        forall f, followUp (renderMessage m) = Some f ->
                  bubbleText (renderMessage m) = f).
Proof.
  intros H. apply truthy_not_nil in H.
  unfold settlement, delivered, input in *. run_page. rewrite H. cbn.
  by_settlement; intros D; try discriminate D.
  injection D as ->. rewrite <- app_assoc. cbn.
  do 2 eexists; repeat split.
  - unfold followUpButton, as_partial. cbn.
    destruct (follow_up data) as [[|c f]|]; reflexivity.
  - unfold followUpButton, as_partial. cbn. intros A f.
    rewrite A. destruct (follow_up data) as [[|c f']|]; cbn; congruence.
Qed.

(** ** What every event preserves *)

Lemma answered_app (l1 l2 : list Message) :
  answered l1 = true -> answered l2 = true -> answered (l1 ++ l2) = true.
Proof.
  intros H1 H2. revert H1.
  enough (G : (answered l1 = true -> answered (l1 ++ l2) = true)
              /\ (forall a, answered (a :: l1) = true ->
                            answered (a :: l1 ++ l2) = true))
    by apply G.
  induction l1 as [|b l [IH1 IH2]].
  - split; [now intros _|].
    intros a. cbn. destruct (from a); try discriminate; now intros _.
  - split; [apply IH2|].
    intros a. cbn [answered app]. destruct (from a).
    + intros H. apply andb_prop in H as [Hb Hl].
      rewrite Hb. cbn. now apply IH1.
    + apply IH2.
    + apply IH2.
Qed.

Lemma grows_same (br : Browser) (n : nat) (s s' : Sys) :
  messages (view s') = messages (view s) ->
  issued s' = issued s ->
  loading (view s') = loading (view s) ->
  grows br n s s'.
Proof.
  intros Hm Hi Hl. exists [], []. rewrite !app_nil_r, Hl.
  repeat split; auto; cbn; lia.
Qed.

Lemma grows_trans (br : Browser) (n1 n2 : nat) (s1 s2 s3 : Sys) :
  grows br n1 s1 s2 -> grows br n2 s2 s3 -> grows br (n1 + n2) s1 s3.
Proof.
  intros (a1 & i1 & Hm1 & Hi1 & Hw1 & Ha1 & Hr1 & La1 & Li1 & Hl1)
         (a2 & i2 & Hm2 & Hi2 & Hw2 & Ha2 & Hr2 & La2 & Li2 & Hl2).
  exists (a1 ++ a2), (i1 ++ i2).
  rewrite Hm2, Hm1, Hi2, Hi1, !app_assoc, forallb_app, Hw1, Hw2, !length_app.
  repeat split; auto.
  - now apply answered_app.
  - apply Forall_app. now split.
  - lia.
  - lia.
Qed.

Lemma sendQuestion_grows (br : Browser) (s : Sys) (q : option jsstring) :
  grows br 1 s (snd (sendQuestion q br s)).
Proof.
  destruct (trim (input q s)) as [|c t] eqn:E.
  - rewrite (sendQuestion_run_blank br s q E). now apply grows_same.
  - assert (Hne : trim (input q s) <> []) by congruence.
    pose proof (trim_tight _ Hne) as Ht.
    assert (H : truthy (trim (input q s)) = true) by (rewrite E; reflexivity).
    unfold grows, input in *. run_page. rewrite H. cbn.
    by_settlement; rewrite <- app_assoc; cbn;
      eexists [_; _], [_]; (repeat split; try reflexivity);
      try (cbn; lia);
      try (cbn; rewrite ?starts_with_app, ?Ht; reflexivity);
      (constructor; [|constructor]); right; cbn;
      exists (trim (coalesce_to q (question (view s)))); now split.
Qed.

Lemma fetchWelcome_grows (br : Browser) (s : Sys) :
  grows br 1 s (snd (fetchWelcome br s)).
Proof.
  unfold grows. run_page.
  by_settlement; eexists [_], [_]; (repeat split; try reflexivity);
    try (cbn; lia);
    try (cbn; rewrite ?starts_with_app; reflexivity);
    try (now intros ->);
    (constructor; [|constructor]); now left.
Qed.

Lemma dispatch_grows (br : Browser) (ev : UiEvent) (s : Sys) :
  grows br 1 s (snd (dispatch ev br s)).
Proof.
  destruct ev as [|value|key shiftKey| | |index].
  - apply fetchWelcome_grows.
  - unfold dispatch, bind, rendered. cbn.
    destruct (loading (view s)) eqn:L; now apply grows_same.
  - unfold dispatch, onKeyDown, bind, rendered. cbn.
    destruct (loading (view s)) eqn:L; [now apply grows_same|].
    destruct (list_eq_dec N.eq_dec key (lit "Enter")); [|now apply grows_same].
    destruct shiftKey; cbn; [now apply grows_same|].
    rewrite L. cbn. apply sendQuestion_grows.
  - unfold dispatch, bind, rendered. cbn.
    destruct (loading (view s)); [now apply grows_same|].
    apply sendQuestion_grows.
  - unfold dispatch, bind, rendered. cbn.
    destruct (loading (view s)) eqn:L; now apply grows_same.
  - unfold dispatch, handleFollowUpClick, bind, rendered. cbn.
    destruct (nth_error (messages (view s)) index) as [m|];
      [|now apply grows_same].
    destruct (followUpButton m); [|now apply grows_same].
    apply sendQuestion_grows.
Qed.

Lemma run_grows (br : Browser) (evs : list UiEvent) (s : Sys) :
  grows br (List.length evs) s (run br evs s).
Proof.
  revert s. induction evs as [|ev evs IH]; intros s.
  - now apply grows_same.
  - change (List.length (ev :: evs)) with (1 + List.length evs).
    apply (grows_trans br 1 _ s (snd (dispatch ev br s))).
    + apply dispatch_grows.
    + apply IH.
Qed.

Lemma made_by_page_id (m : Message) :
  made_by_page m = true ->
  exists rest,
    id m = match from m with user => 117 | bot => 98 | system => 115 end%N
           :: rest.
Proof.
  unfold made_by_page.
  change (lit "u_") with (117 :: lit "_")%N.
  change (lit "b_") with (98 :: lit "_")%N.
  change (lit "s_") with (115 :: lit "_")%N.
  destruct (from m); intros H;
    repeat (apply andb_prop in H as [H _]);
    now apply starts_with_first in H.
Qed.

(** X9: every request the page ever issues is the welcome GET or a chat
    POST whose question is not empty and has no whitespace at either end. *)
Theorem requests_are_page_requests
    (br : Browser) (evs : list UiEvent) (s : Sys) :
  Forall (fun i => page_request br (request i)) (issued s) ->
  Forall (fun i => page_request br (request i)) (issued (run br evs s)).
Proof.
  intros H.
  destruct (run_grows br evs s) as (a & i & _ & Hi & _ & _ & Hr & _).
  rewrite Hi. apply Forall_app. now split.
Qed.

(** X11: a page that is not awaiting a reply is not awaiting one after any
    sequence of events: the composer is enabled and the button reads
    ["Send"]. *)
Theorem idle_after_every_event
    (br : Browser) (evs : list UiEvent) (s : Sys) :
  loading (view s) = false ->
  loading (view (run br evs s)) = false
  /\ textareaDisabled (render br (view (run br evs s))) = false
  /\ sendDisabled (render br (view (run br evs s))) = false
  /\ clearDisabled (render br (view (run br evs s))) = false
  /\ sendLabel (render br (view (run br evs s))) = lit "Send".
Proof.
  intros H.
  destruct (run_grows br evs s) as (a & i & _ & _ & _ & _ & _ & _ & _ & Hl).
  specialize (Hl H). unfold render. cbn. rewrite Hl. repeat split.
Qed.

(** X13: the turns of the conversation stay of the three kinds the page
    makes: user turns with a tight text and no metadata, bot turns with
    metadata, system turns with an error text and no metadata, each with
    the id prefix of its origin. *)
Theorem turns_are_made_by_page
    (br : Browser) (evs : list UiEvent) (s : Sys) :
  forallb made_by_page (messages (view s)) = true ->
  forallb made_by_page (messages (view (run br evs s))) = true.
Proof.
  intros H.
  destruct (run_grows br evs s) as (a & i & Hm & _ & Hw & _).
  now rewrite Hm, forallb_app, H, Hw.
Qed.

(** X14: two turns of different origins never have the same id. *)
Theorem ids_differ_across_origins
    (br : Browser) (evs : list UiEvent) (s : Sys) (m1 m2 : Message) :
  forallb made_by_page (messages (view s)) = true ->
  In m1 (messages (view (run br evs s))) ->
  In m2 (messages (view (run br evs s))) ->
  from m1 <> from m2 ->
  id m1 <> id m2.
Proof.
  intros H I1 I2 Hd.
  destruct (run_grows br evs s) as (a & i & Hm & _ & Hw & _).
  assert (W : forallb made_by_page (messages (view (run br evs s))) = true)
    by now rewrite Hm, forallb_app, H, Hw.
  rewrite forallb_forall in W.
  destruct (made_by_page_id m1 (W _ I1)) as [r1 E1].
  destruct (made_by_page_id m2 (W _ I2)) as [r2 E2].
  rewrite E1, E2. intros E. injection E as E _.
  destruct (from m1), (from m2); try discriminate E; now elim Hd.
Qed.

(** X15: in the conversation, the bot bubbles are exactly the ones with a
    confidence block, and only they can have a follow-up button. *)
Theorem only_bot_bubbles_have_details
    (br : Browser) (evs : list UiEvent) (s : Sys) (m : Message) :
  forallb made_by_page (messages (view s)) = true ->
  In m (messages (view (run br evs s))) ->
  (details (renderMessage m) = None <-> from m <> bot)
  /\ (from m <> bot -> followUp (renderMessage m) = None).
Proof.
  intros H I.
  destruct (run_grows br evs s) as (a & i & Hm & _ & Hw & _).
  assert (W : forallb made_by_page (messages (view (run br evs s))) = true)
    by now rewrite Hm, forallb_app, H, Hw.
  rewrite forallb_forall in W. specialize (W _ I).
  unfold made_by_page in W. unfold renderMessage, renderDetails, followUpButton, isBot.
  cbn. destruct (from m), (meta m); cbn in *;
    rewrite ?andb_false_r in W; try discriminate W;
    repeat split; try congruence; try discriminate.
Qed.

(** X16: no event makes the page issue more than one request or append
    more than two turns; nothing is ever retried. *)
Theorem at_most_one_request_per_event
    (br : Browser) (evs : list UiEvent) (s : Sys) :
  List.length (issued (run br evs s))
    <= List.length (issued s) + List.length evs
  /\ List.length (messages (view (run br evs s)))
       <= List.length (messages (view s)) + 2 * List.length evs.
Proof.
  destruct (run_grows br evs s) as (a & i & Hm & Hi & _ & _ & _ & La & Li & _).
  rewrite Hm, Hi, !length_app. lia.
Qed.

(** ** The composer *)

Lemma fetchWelcome_appends_one (br : Browser) (s : Sys) :
  exists m : Message,
    messages (view (snd (fetchWelcome br s))) = messages (view s) ++ [m].
Proof.
  run_page. by_settlement; eexists; reflexivity.
Qed.

(** X17: once the welcome has been fetched the conversation is never
    empty again: the note for an empty conversation is not shown. *)
Theorem emptyNote_gone_after_welcome
    (br : Browser) (evs : list UiEvent) (s : Sys) :
  emptyNote (render br (view (run br (Mounted :: evs) s))) = false
  /\ bubbles (render br (view (run br (Mounted :: evs) s))) <> [].
Proof.
  cbn [run dispatch].
  destruct (fetchWelcome_appends_one br s) as [m Hm].
  destruct (run_extends br evs (snd (fetchWelcome br s))) as [added Ha].
  unfold render. cbn. rewrite Ha, Hm, <- app_assoc.
  destruct (messages (view s)); cbn; split; congruence.
Qed.

(** X18: a key press sends the draft exactly when the key is Enter, Shift
    is not held, no reply is awaited and the draft is not blank; any other
    key, Shift+Enter, or Enter while a reply is awaited changes nothing. *)
Theorem onKeyDown_sends_iff
    (br : Browser) (s : Sys) (key : jsstring) (shiftKey : bool) :
  questions_sent (snd (onKeyDown key shiftKey br s)) =
    questions_sent s ++
    (if list_eq_dec N.eq_dec key (lit "Enter") then
       if shiftKey then []
       else if loading (view s) then []
       else if truthy (trim (question (view s)))
            then [trim (question (view s))] else []
     else [])
  /\ (key <> lit "Enter" \/ shiftKey = true \/ loading (view s) = true ->
      onKeyDown key shiftKey br s = (Fulfilled tt, s)).
Proof.
  unfold onKeyDown, bind, rendered.
  destruct (list_eq_dec N.eq_dec key (lit "Enter")) as [K|K].
  - destruct shiftKey; cbn.
    + rewrite app_nil_r. split; [reflexivity | now intros _].
    + destruct (loading (view s)) eqn:L; cbn.
      * rewrite app_nil_r. split; [reflexivity | now intros _].
      * split; [apply (sendQuestion_questions br s None)|].
        intros [X|[X|X]]; [now elim X | discriminate X | discriminate X].
  - cbn. rewrite app_nil_r. split; [reflexivity | now intros _].
Qed.

(** X21: typing a text and pressing Send, on a page that awaits nothing,
    sends the text with the whitespace at both ends removed, and sends
    nothing when the text is blank. *)
Theorem type_then_send (br : Browser) (s : Sys) (v : jsstring) :
  loading (view s) = false ->
  questions_sent (run br [Typed v; ClickSend] s) =
    questions_sent s ++ (if truthy (trim v) then [trim v] else []).
Proof.
  intros L. cbn [run]. unfold dispatch at 2, bind, rendered. cbn.
  rewrite L. cbn. unfold dispatch, bind, rendered. cbn. rewrite L. cbn.
  apply (sendQuestion_questions br
           {| view := {| question := v; loading := false;
                         error := error (view s);
                         messages := messages (view s) |};
              tick := tick s; issued := issued s |} None).
Qed.

(** X22: Clear then Send, on a page that awaits nothing, sends nothing,
    appends nothing and asks for a question. *)
Theorem clear_then_send (br : Browser) (s : Sys) :
  loading (view s) = false ->
  issued (run br [ClickClear; ClickSend] s) = issued s
  /\ messages (view (run br [ClickClear; ClickSend] s)) = messages (view s)
  /\ error (view (run br [ClickClear; ClickSend] s)) =
       Some (lit "Please enter a question.").
Proof.
  intros L. cbn [run]. unfold dispatch at 2, bind, rendered. cbn.
  rewrite L. cbn. unfold dispatch, bind, rendered. cbn. rewrite L. cbn.
  rewrite sendQuestion_run_blank by reflexivity. repeat split.
Qed.

(** ** The further statements at sample inputs *)


Lemma fetchWelcome_unparsable_body_witness :
  greeting (sampleBrowser (Fulfilled unparsable)) mount = Fulfilled unparsable
  /\ ok unparsable = true
  /\ json_body unparsable = Rejected (Error (lit "Unexpected token < in JSON"))
  /\ option_map text
       (nth_error
          (messages (view (snd (fetchWelcome (sampleBrowser (Fulfilled unparsable))
                                  mount)))) 0)
     = Some fallbackWelcome.
Proof.
  split; [reflexivity|]. split; [reflexivity|]. split; [reflexivity|].
  destruct (fetchWelcome_unparsable_body
              (sampleBrowser (Fulfilled unparsable)) mount unparsable
              (Error (lit "Unexpected token < in JSON"))
              eq_refl eq_refl eq_refl)
    as (m & Hm & _ & Ht & _).
  rewrite Hm. cbn. now rewrite Ht.
Defined.

Lemma sendQuestion_failure_consistent_witness :
  trim (input (Some (lit "hi")) mount) <> []
  /\ delivered (settlement (sampleBrowser offline) mount (Some (lit "hi"))) = None
  /\ exists msg,
       error (view (snd (sendQuestion (Some (lit "hi"))
                           (sampleBrowser offline) mount))) = Some msg.
Proof.
  assert (H : trim (input (Some (lit "hi")) mount) <> [])
    by (vm_compute; discriminate).
  split; [exact H|]. split; [reflexivity|].
  destruct (sendQuestion_failure_consistent (sampleBrowser offline) mount
              (Some (lit "hi")) H eq_refl)
    as (msg & u & m & He & _).
  now exists msg.
Defined.

Lemma sendQuestion_unknown_error_witness :
  trim (input (Some (lit "hi")) mount) <> []
  /\ settlement (sampleBrowser (Rejected {| message := None |})) mount
       (Some (lit "hi")) = Rejected {| message := None |}
  /\ error (view (snd (sendQuestion (Some (lit "hi"))
                         (sampleBrowser (Rejected {| message := None |}))
                         mount)))
     = Some (lit "Unknown error").
Proof.
  assert (H : trim (input (Some (lit "hi")) mount) <> [])
    by (vm_compute; discriminate).
  split; [exact H|]. split; [reflexivity|].
  exact (proj1 (sendQuestion_unknown_error
                  (sampleBrowser (Rejected {| message := None |})) mount
                  (Some (lit "hi")) {| message := None |} H eq_refl eq_refl)).
Defined.

Lemma sendQuestion_unparsable_body_witness :
  trim (input (Some (lit "hi")) mount) <> []
  /\ settlement (sampleBrowser (Fulfilled unparsable)) mount (Some (lit "hi"))
     = Fulfilled unparsable
  /\ error (view (snd (sendQuestion (Some (lit "hi"))
                         (sampleBrowser (Fulfilled unparsable)) mount)))
     = Some (lit "Unexpected token < in JSON").
Proof.
  assert (H : trim (input (Some (lit "hi")) mount) <> [])
    by (vm_compute; discriminate).
  split; [exact H|]. split; [reflexivity|].
  exact (proj1 (sendQuestion_unparsable_body
                  (sampleBrowser (Fulfilled unparsable)) mount (Some (lit "hi"))
                  unparsable (Error (lit "Unexpected token < in JSON"))
                  (lit "Unexpected token < in JSON")
                  H eq_refl eq_refl eq_refl eq_refl)).
Defined.

Lemma sendQuestion_unreadable_body_witness :
  trim (input (Some (lit "hi")) mount) <> []
  /\ ok {| status := 502;
           text_body := Rejected (Error (lit "network error"));
           json_body := Rejected (Error (lit "network error")) |} = false
  /\ error (view (snd (sendQuestion (Some (lit "hi"))
                         (sampleBrowser
                            (Fulfilled
                               {| status := 502;
                                  text_body := Rejected (Error (lit "network error"));
                                  json_body := Rejected (Error (lit "network error")) |}))
                         mount)))
     = Some (lit "network error").
Proof.
  assert (H : trim (input (Some (lit "hi")) mount) <> [])
    by (vm_compute; discriminate).
  split; [exact H|]. split; [reflexivity|].
  exact (proj1 (sendQuestion_unreadable_body
                  (sampleBrowser
                     (Fulfilled
                        {| status := 502;
                           text_body := Rejected (Error (lit "network error"));
                           json_body := Rejected (Error (lit "network error")) |}))
                  mount (Some (lit "hi")) _ (Error (lit "network error"))
                  (lit "network error") H eq_refl eq_refl eq_refl eq_refl)).
Defined.

Lemma sendQuestion_followUp_button_witness :
  trim (input (Some (lit "hi")) mount) <> []
  /\ delivered (settlement (sampleBrowser (Fulfilled (replyWith onlyFollowUp)))
                  mount (Some (lit "hi"))) = Some onlyFollowUp
  /\ option_map (fun m => followUp (renderMessage m))
       (nth_error
          (messages (view (snd (sendQuestion (Some (lit "hi"))
                                  (sampleBrowser (Fulfilled (replyWith onlyFollowUp)))
                                  mount)))) 1)
     = Some (Some (lit "Tell me more ")).
Proof.
  assert (H : trim (input (Some (lit "hi")) mount) <> [])
    by (vm_compute; discriminate).
  split; [exact H|]. split; [reflexivity|].
  destruct (sendQuestion_followUp_button
              (sampleBrowser (Fulfilled (replyWith onlyFollowUp))) mount
              (Some (lit "hi")) onlyFollowUp H eq_refl)
    as (u & m & Hm & _ & Hb & _).
  rewrite Hm. change (messages (view mount) ++ [u; m]) with [u; m].
  cbn [nth_error option_map]. now rewrite Hb.
Defined.

Lemma requests_are_page_requests_witness :
  Forall (fun i => page_request (sampleBrowser offline) (request i)) (issued mount)
  /\ Forall (fun i => page_request (sampleBrowser offline) (request i))
       (issued (run (sampleBrowser offline)
                  [Mounted; Typed (lit " hi "); ClickSend] mount)).
Proof.
  assert (H : Forall (fun i => page_request (sampleBrowser offline) (request i))
                (issued mount)) by constructor.
  split; [exact H|].
  exact (requests_are_page_requests (sampleBrowser offline)
           [Mounted; Typed (lit " hi "); ClickSend] mount H).
Defined.

Lemma idle_after_every_event_witness :
  loading (view mount) = false
  /\ loading (view (run (sampleBrowser offline)
                      [Mounted; Typed (lit "hi"); ClickSend] mount)) = false.
Proof.
  split; [reflexivity|].
  exact (proj1 (idle_after_every_event (sampleBrowser offline)
                  [Mounted; Typed (lit "hi"); ClickSend] mount eq_refl)).
Defined.

Lemma turns_are_made_by_page_witness :
  forallb made_by_page (messages (view mount)) = true
  /\ forallb made_by_page
       (messages (view (run (sampleBrowser (Fulfilled (replyWith plainAnswer)))
                          [Mounted; Typed (lit "hi"); ClickSend] mount)))
     = true.
Proof.
  split; [reflexivity|].
  exact (turns_are_made_by_page
           (sampleBrowser (Fulfilled (replyWith plainAnswer)))
           [Mounted; Typed (lit "hi"); ClickSend] mount eq_refl).
Defined.

Lemma ids_differ_across_origins_witness :
  exists m1 m2 : Message,
    In m1 (messages (view (run (sampleBrowser offline)
                             [Mounted; Typed (lit "hi"); ClickSend] mount)))
    /\ In m2 (messages (view (run (sampleBrowser offline)
                                [Mounted; Typed (lit "hi"); ClickSend] mount)))
    /\ from m1 <> from m2
    /\ id m1 <> id m2.
Proof.
  pose proof (ids_differ_across_origins (sampleBrowser offline)
                [Mounted; Typed (lit "hi"); ClickSend] mount) as T.
  remember (messages (view (run (sampleBrowser offline)
                              [Mounted; Typed (lit "hi"); ClickSend] mount)))
    as ms eqn:E in *.
  destruct ms as [|m1 [|m2 rest]]; try (vm_compute in E; discriminate E).
  assert (D : from m1 <> from m2)
    by (vm_compute in E; injection E as -> -> _; discriminate).
  exists m1, m2.
  assert (I1 : In m1 (m1 :: m2 :: rest)) by now left.
  assert (I2 : In m2 (m1 :: m2 :: rest)) by (right; now left).
  split; [exact I1|]. split; [exact I2|]. split; [exact D|].
  exact (T m1 m2 eq_refl I1 I2 D).
Defined.

Lemma only_bot_bubbles_have_details_witness :
  exists m : Message,
    In m (messages (view (run (sampleBrowser offline) [Mounted] mount)))
    /\ from m = bot
    /\ details (renderMessage m) <> None.
Proof.
  pose proof (only_bot_bubbles_have_details (sampleBrowser offline)
                [Mounted] mount) as T.
  remember (messages (view (run (sampleBrowser offline) [Mounted] mount)))
    as ms eqn:E in *.
  destruct ms as [|m rest]; [vm_compute in E; discriminate E|].
  assert (B : from m = bot) by (vm_compute in E; injection E as -> _; reflexivity).
  assert (I : In m (m :: rest)) by now left.
  exists m. split; [exact I|]. split; [exact B|].
  intros N. apply (proj1 (T m eq_refl I)) in N. now elim N.
Defined.

Lemma onKeyDown_sends_iff_witness :
  (lit "Enter" <> lit "Enter" \/ true = true \/ loading (view mount) = true)
  /\ onKeyDown (lit "Enter") true (sampleBrowser offline) mount
     = (Fulfilled tt, mount).
Proof.
  assert (H : lit "Enter" <> lit "Enter" \/ true = true
              \/ loading (view mount) = true)
    by (right; now left).
  split; [exact H|].
  exact (proj2 (onKeyDown_sends_iff (sampleBrowser offline) mount
                  (lit "Enter") true) H).
Defined.

Lemma type_then_send_witness :
  loading (view mount) = false
  /\ questions_sent (run (sampleBrowser offline)
                       [Typed (lit " hi "); ClickSend] mount)
     = [lit "hi"].
Proof.
  split; [reflexivity|].
  rewrite (type_then_send (sampleBrowser offline) mount (lit " hi ") eq_refl).
  reflexivity.
Defined.

Lemma clear_then_send_witness :
  loading (view mount) = false
  /\ issued (run (sampleBrowser offline) [ClickClear; ClickSend] mount)
     = issued mount.
Proof.
  split; [reflexivity|].
  exact (proj1 (clear_then_send (sampleBrowser offline) mount eq_refl)).
Defined.

(** ** Handlers that overlap *)

Arguments sendQuestion_begin : simpl never.
Arguments sendQuestion_resume : simpl never.
Arguments fetchWelcome_begin : simpl never.
Arguments fetchWelcome_resume : simpl never.
Arguments submit : simpl never.
Arguments dispatch_begin : simpl never.

(** Split on a settlement that is given. *)
Ltac by_given settled :=
  let resp := fresh "resp" in
  let e := fresh "e" in
  let Hok := fresh "Hok" in
  destruct settled as [resp|e]; cbn;
  [ destruct (ok resp) eqn:Hok; cbn;
    [ destruct (json_body resp); cbn | destruct (text_body resp); cbn ]
  | ].

(** The sequential [sendQuestion] is its first part followed at once by
    its second part, on the settlement the browser gives. *)
Lemma sendQuestion_cut (br : Browser) (s : Sys) (q : option jsstring) :
  sendQuestion q br s =
    match fst (sendQuestion_begin q br s) with
    | Fulfilled (Some _) =>
        sendQuestion_resume
          (settles_now br (snd (sendQuestion_begin q br s)))
          br (snd (sendQuestion_begin q br s))
    | _ => (Fulfilled tt, snd (sendQuestion_begin q br s))
    end.
Proof.
  unfold sendQuestion, sendQuestion_begin, sendQuestion_resume, settles_now,
    issue, try_catch_finally, bind, rendered.
  cbn. destruct (truthy (trim (coalesce_to q (question (view s))))); cbn;
    [|reflexivity].
  rewrite rev_app_distr. cbn. by_settlement; reflexivity.
Qed.

Lemma fetchWelcome_cut (br : Browser) (s : Sys) :
  fetchWelcome br s =
    fetchWelcome_resume (settles_now br (snd (fetchWelcome_begin br s)))
      br (snd (fetchWelcome_begin br s)).
Proof.
  unfold fetchWelcome, fetchWelcome_begin, fetchWelcome_resume, settles_now,
    issue, try_catch, try_catch_finally, bind.
  cbn. rewrite rev_app_distr. cbn. by_settlement; reflexivity.
Qed.

(** Handling an event to its end, as [dispatch] does, is letting the
    response arrive before anything else happens. *)
Lemma dispatch_cut (br : Browser) (ev : UiEvent) (s : Sys) :
  snd (dispatch ev br s) =
    page
      (match awaiting (happen br (Does ev) {| page := s; awaiting := [] |}) with
       | [] => happen br (Does ev) {| page := s; awaiting := [] |}
       | _ :: _ =>
           happen br
             (Arrives 0
                (settles_now br
                   (page (happen br (Does ev) {| page := s; awaiting := [] |}))))
             (happen br (Does ev) {| page := s; awaiting := [] |})
       end).
Proof.
  assert (S : forall q s0,
             snd (sendQuestion q br s0) =
               page
                 (match
                     match fst (submit q br s0) with
                     | Fulfilled (Some a) => [a]
                     | _ => []
                     end
                   with
                   | [] => {| page := snd (submit q br s0); awaiting := [] |}
                   | a :: _ =>
                       {| page := snd (resume a (settles_now br (snd (submit q br s0)))
                                         br (snd (submit q br s0)));
                          awaiting := [] |}
                   end)).
  { intros q s0. rewrite sendQuestion_cut. unfold submit, bind.
    destruct (sendQuestion_begin q br s0) as [[[t|]|e] s1]; reflexivity. }
  destruct ev as [|value|key shiftKey| | |index]; cbn [happen page awaiting app].
  - cbn [dispatch]. rewrite fetchWelcome_cut.
    unfold dispatch_begin, bind, fetchWelcome_begin, issue. cbn. reflexivity.
  - unfold dispatch, dispatch_begin, bind, rendered. cbn.
    destruct (loading (view s)); reflexivity.
  - unfold dispatch, dispatch_begin, onKeyDown, bind, rendered. cbn.
    destruct (loading (view s)) eqn:L; [reflexivity|].
    destruct (list_eq_dec N.eq_dec key (lit "Enter")); [|reflexivity].
    destruct shiftKey; cbn; [reflexivity|].
    rewrite L. cbn.
    rewrite S. destruct (fst (submit None br s)) as [[a|]|]; reflexivity.
  - unfold dispatch, dispatch_begin, bind, rendered. cbn.
    destruct (loading (view s)); [reflexivity|].
    rewrite S. destruct (fst (submit None br s)) as [[a|]|]; reflexivity.
  - unfold dispatch, dispatch_begin, bind, rendered. cbn.
    destruct (loading (view s)); reflexivity.
  - unfold dispatch, dispatch_begin, handleFollowUpClick, bind, rendered. cbn.
    destruct (nth_error (messages (view s)) index) as [m|]; [|reflexivity].
    destruct (followUpButton m) as [f|]; [|reflexivity].
    rewrite S. destruct (fst (submit (Some f) br s)) as [[a|]|]; reflexivity.
Qed.

Lemma resume_shape
    (br : Browser) (a : Awaiting) (settled : Settled Response) (s : Sys) :
  exists r : Message,
    messages (view (snd (resume a settled br s))) = messages (view s) ++ [r]
    /\ isUser r = false
    /\ issued (snd (resume a settled br s)) = issued s.
Proof.
  destruct a; unfold resume, fetchWelcome_resume, sendQuestion_resume,
    try_catch, try_catch_finally, bind; cbn;
    by_given settled; eexists; repeat split.
Qed.

Arguments begins : simpl never.

Lemma begins_nothing (s s' : Sys) (r : Settled (option Awaiting)) :
  messages (view s') = messages (view s) ->
  issued s' = issued s ->
  match r with Fulfilled (Some _) => False | _ => True end ->
  begins s (r, s').
Proof.
  intros Hm Hi Hr. exists [], []. cbn [fst snd]. rewrite !app_nil_r.
  repeat split; auto. destruct r as [[a|]|]; [elim Hr | reflexivity..].
Qed.

Lemma submit_begins (br : Browser) (s : Sys) (q : option jsstring) :
  begins s (submit q br s).
Proof.
  unfold submit, sendQuestion_begin, issue, bind, rendered. cbn.
  destruct (truthy (trim (coalesce_to q (question (view s))))); cbn.
  - unfold begins. cbn. do 2 eexists.
    split; [reflexivity|]. split; [reflexivity|]. repeat split.
  - now apply begins_nothing.
Qed.

Lemma dispatch_begin_begins (br : Browser) (ev : UiEvent) (s : Sys) :
  begins s (dispatch_begin ev br s).
Proof.
  destruct ev as [|value|key shiftKey| | |index].
  - unfold dispatch_begin, fetchWelcome_begin, issue, bind. cbn.
    unfold begins. cbn. exists []. eexists. rewrite app_nil_r.
    split; [reflexivity|]. split; [reflexivity|]. repeat split.
  - unfold dispatch_begin, bind, rendered. cbn.
    destruct (loading (view s)); cbn; now apply begins_nothing.
  - unfold dispatch_begin, bind, rendered. cbn.
    destruct (loading (view s)) eqn:L; cbn; [now apply begins_nothing|].
    destruct (list_eq_dec N.eq_dec key (lit "Enter"));
      [|now apply begins_nothing].
    destruct shiftKey; cbn; [now apply begins_nothing|].
    rewrite L. cbn. apply submit_begins.
  - unfold dispatch_begin, bind, rendered. cbn.
    destruct (loading (view s)); cbn; [now apply begins_nothing|].
    apply submit_begins.
  - unfold dispatch_begin, bind, rendered. cbn.
    destruct (loading (view s)); cbn; now apply begins_nothing.
  - unfold dispatch_begin, bind, rendered. cbn.
    destruct (nth_error (messages (view s)) index) as [m|];
      [|now apply begins_nothing].
    destruct (followUpButton m); [|now apply begins_nothing].
    apply submit_begins.
Qed.

Lemma length_without (A : Type) (l : list A) (k : nat) (a : A) :
  nth_error l k = Some a ->
  S (List.length (firstn k l ++ skipn (S k) l)) = List.length l.
Proof.
  revert k. induction l as [|b l IH]; intros [|k] H; try discriminate H.
  - cbn. reflexivity.
  - cbn in *. now rewrite (IH k H).
Qed.

Lemma happen_counts (br : Browser) (h : Happening) (l : Live) :
  List.length (responses (messages (view (page l)))) + List.length (awaiting l)
    = List.length (issued (page l)) ->
  List.length (questions (messages (view (page l))))
    = List.length (questions_sent (page l)) ->
  List.length (responses (messages (view (page (happen br h l)))))
    + List.length (awaiting (happen br h l))
    = List.length (issued (page (happen br h l)))
  /\ List.length (questions (messages (view (page (happen br h l)))))
     = List.length (questions_sent (page (happen br h l))).
Proof.
  intros H1 H2. destruct h as [ev|k settled]; cbn [happen].
  - destruct (dispatch_begin_begins br ev (page l))
      as (us & rs & Hm & Hi & Hr & La & Lq).
    cbn [page awaiting]. unfold questions_sent in *. cbn [issued] in Lq.
    unfold responses, questions in *.
    rewrite Hm, Hi, !filter_app, flat_map_app, !length_app, Hr, <- La, Lq.
    change (List.length (@nil Message)) with 0. split; lia.
  - destruct (nth_error (awaiting l) k) as [a|] eqn:E; [|now split].
    destruct (resume_shape br a settled (page l)) as (r & Hm & Hu & Hi).
    pose proof (length_without _ _ _ _ E) as Lw.
    cbn [page awaiting]. unfold questions_sent in *.
    unfold responses, questions in *.
    rewrite Hm, Hi, !filter_app, !length_app. cbn [filter]. rewrite Hu.
    cbn [negb List.length]. rewrite length_app in Lw. split; lia.
Qed.

(** X7: when the response to a pending submission arrives, whatever has
    happened since the request left, exactly one turn is appended after the
    turns of that moment and the awaiting flag is cleared.  A delivered
    reply appends a bot turn and leaves the error indicator as it is;
    otherwise a system turn ["Error: " ++ msg] is appended and the
    indicator becomes [msg]. *)
Theorem reply_arrives
    (br : Browser) (l : Live) (k : nat) (settled : Settled Response) :
  nth_error (awaiting l) k = Some AwaitsReply ->
  exists r : Message,
    messages (view (page (happen br (Arrives k settled) l)))
      = messages (view (page l)) ++ [r]
    /\ loading (view (page (happen br (Arrives k settled) l))) = false
    /\ question (view (page (happen br (Arrives k settled) l)))
       = question (view (page l))
    /\ issued (page (happen br (Arrives k settled) l)) = issued (page l)
    /\ match delivered settled with
       | Some data =>
           from r = bot
           /\ meta r = Some (as_partial data)
           /\ error (view (page (happen br (Arrives k settled) l)))
              = error (view (page l))
       | None =>
           from r = system
           /\ exists msg : jsstring,
                error (view (page (happen br (Arrives k settled) l))) = Some msg
                /\ text r = lit "Error: " ++ msg
       end.
Proof.
  intros E. cbn [happen]. rewrite E. cbn [page].
  unfold resume, sendQuestion_resume, try_catch_finally, bind, delivered. cbn.
  by_given settled; eexists; repeat split; eexists; repeat split.
Qed.

(** X12: however events and responses interleave, every request issued has
    either produced exactly one turn that is not a user turn or is still
    awaited, and every user turn is the question of one POST. *)
Theorem one_response_per_request
    (br : Browser) (hs : list Happening) (l : Live) :
  List.length (responses (messages (view (page l)))) + List.length (awaiting l)
    = List.length (issued (page l)) ->
  List.length (questions (messages (view (page l))))
    = List.length (questions_sent (page l)) ->
  List.length (responses (messages (view (page (unfold_live br hs l)))))
    + List.length (awaiting (unfold_live br hs l))
    = List.length (issued (page (unfold_live br hs l)))
  /\ List.length (questions (messages (view (page (unfold_live br hs l)))))
     = List.length (questions_sent (page (unfold_live br hs l))).
Proof.
  revert l. induction hs as [|h hs IH]; intros l H1 H2; cbn [unfold_live].
  - now split.
  - destruct (happen_counts br h l H1 H2) as [H1' H2']. now apply IH.
Qed.

Lemma reply_arrives_witness :
  nth_error (awaiting overlapped) 0 = Some AwaitsReply
  /\ error (view (page overlapped)) = Some (lit "Server 500: boom")
  /\ error (view (page (happen (sampleBrowser offline)
                          (Arrives 0 (Fulfilled (replyWith plainAnswer)))
                          overlapped)))
     = Some (lit "Server 500: boom")
  /\ map from
       (messages (view (page (happen (sampleBrowser offline)
                                (Arrives 0 (Fulfilled (replyWith plainAnswer)))
                                overlapped))))
     = [bot; user; user; system; bot].
Proof.
  assert (E : nth_error (awaiting overlapped) 0 = Some AwaitsReply)
    by reflexivity.
  split; [exact E|]. split; [reflexivity|].
  destruct (reply_arrives (sampleBrowser offline) overlapped 0
              (Fulfilled (replyWith plainAnswer)) E)
    as (r & Hm & _ & _ & _ & Hd).
  change (delivered (Fulfilled (replyWith plainAnswer)))
    with (Some plainAnswer) in Hd.
  destruct Hd as (Hf & _ & He).
  split; [rewrite He; reflexivity|].
  rewrite Hm, map_app. cbn [map]. rewrite Hf. reflexivity.
Defined.

Lemma one_response_per_request_witness :
  List.length (responses (messages (view mount))) + 0 = List.length (issued mount)
  /\ List.length (questions (messages (view mount)))
     = List.length (questions_sent mount)
  /\ List.length
       (responses
          (messages
             (view (page (unfold_live (sampleBrowser offline)
                            [Does Mounted; Does (Typed (lit "hi")); Does ClickSend;
                             Arrives 1 offline]
                            {| page := mount; awaiting := [] |})))))
     + List.length
         (awaiting (unfold_live (sampleBrowser offline)
                      [Does Mounted; Does (Typed (lit "hi")); Does ClickSend;
                       Arrives 1 offline]
                      {| page := mount; awaiting := [] |}))
     = 2.
Proof.
  split; [reflexivity|]. split; [reflexivity|].
  rewrite (proj1 (one_response_per_request (sampleBrowser offline)
                    [Does Mounted; Does (Typed (lit "hi")); Does ClickSend;
                     Arrives 1 offline]
                    {| page := mount; awaiting := [] |} eq_refl eq_refl)).
  reflexivity.
Defined.
